(** * Session and access controller of the ALL classifier front end

    A shallow embedding of [src/contexts/AuthContext.tsx] (the
    [AuthProvider]: response interceptor, [initializeAuth],
    [fetchUserData], [login], [register], [logout] and the derived
    [isAuthenticated] / [isAdmin] flags), of the route guards
    [AdminRoute] and [AuthLayout], and of the session-relevant part of
    three leaf views ([ClassificationResult.fetchResult],
    [Dashboard.fetchDashboardData], [Classify.fetchClassifications]).
    Around these it embeds the callers and neighbours: the sign-in and
    registration forms, the sidebars with the route table of App.tsx,
    the sort header of the history table, the status changes of
    [Classify] and the confirmed actions of [ManageUsers].

    The browser state the provider works on is explicit: [localStorage],
    [axios.defaults.headers.common] and the two React state cells
    [currentUser] and [isLoading].  Every operation is a computation in
    a small state-and-trace monad [Eff]; the trace records each access
    to the token drawer, each change of the default headers and each
    network request, so that "performs no network call" and "reads the
    token" are statements about the trace.  What the server answers is an
    input of the operation that issues the request. *)

From stdpp Require Import base option list strings pretty gmap.
From Stdlib Require Import ZArith Lia.

Open Scope Z_scope.

(** ** Data *)

(** [interface User] of AuthContext.tsx. *)
Record User := mkUser {
  id : string;
  email : string;
  name : string;
  role : string;
  designation : string;
  status : string
}.

(** The decoded token payload.  [initializeAuth] looks at [decoded.exp]
    only; [None] is a payload without that claim.  The NumericDate is
    taken in whole seconds. *)
Record JwtPayload := mkPayload { exp : option Z }.

(** [error.response] of a rejected axios call: its [status] and
    [data.message] (absent when the body carries none). *)
Record ErrorResponse := mkErrorResponse {
  resp_status : Z;
  resp_message : option string
}.

(** A rejected axios call.  [response] is [None] when no response was
    received (network failure) and for a plain [Error] thrown by the
    caller's own code; [code] is axios' error code (['ECONNABORTED']). *)
Record AxiosError := mkAxiosError {
  response : option ErrorResponse;
  code : option string
}.

(** How an axios promise settles: fulfilled (a 2xx status under the
    default [validateStatus]) with [response.data], or rejected. *)
Inductive AxiosResult (A : Type) : Type :=
| Fulfilled (data : A)
| Rejected (error : AxiosError).
Arguments Fulfilled {A} data.
Arguments Rejected {A} error.

(** How a [window.fetch] promise settles: a response with [ok] and the
    parsed JSON body, a response that is not [ok] with its status and the
    [message] of its body, or a rejection (network failure) with the
    message of the error the browser raises. *)
Inductive FetchResult (A : Type) : Type :=
| FetchOk (body : A)
| FetchNotOk (fstatus : Z) (fmessage : option string)
| FetchFailed (reason : string).
Arguments FetchOk {A} body.
Arguments FetchNotOk {A} fstatus fmessage.
Arguments FetchFailed {A} reason.

Inductive Transport := ViaAxios | ViaFetch.
Inductive Method := GET | POST | PATCH | DELETE.

(** Observable effects, in program order. *)
Inductive Event :=
| LsGetItem (key : string)
| LsSetItem (key value : string)
| LsRemoveItem (key : string)
| HdrSet (header value : string)
| HdrDelete (header : string)
| Http (via : Transport) (m : Method) (url : string)
       (authorization : option string).

(** The state the provider reads and writes. *)
Record World := mkWorld {
  localStorage : gmap string string;
  headersCommon : gmap string string;   (* axios.defaults.headers.common *)
  currentUser : option User;            (* useState<User | null>(null) *)
  isLoading : bool                      (* useState(true) *)
}.

(** ** The effect monad: state passing with a trace *)

Definition Eff (A : Type) : Type := World -> A * World * list Event.

Definition ret {A} (a : A) : Eff A := fun w => (a, w, []).

Definition bind {A B} (m : Eff A) (k : A -> Eff B) : Eff B :=
  fun w =>
    let '(a, w1, t1) := m w in
    let '(b, w2, t2) := k a w1 in
    (b, w2, t1 ++ t2).

Declare Scope eff_scope.
Delimit Scope eff_scope with eff.
Bind Scope eff_scope with Eff.
Notation "x <- c1 ;; c2" := (bind c1 (fun x => c2))
  (at level 100, c1 at next level, c2 at level 200,
   right associativity) : eff_scope.
Notation "c1 ;; c2" := (bind c1 (fun _ => c2))
  (at level 100, c2 at level 200, right associativity) : eff_scope.
Open Scope eff_scope.

Definition result {A} (r : A * World * list Event) : A := fst (fst r).
Definition world {A} (r : A * World * list Event) : World := snd (fst r).
Definition trace {A} (r : A * World * list Event) : list Event := snd r.

(** ** Primitive effects *)

Definition getItem (key : string) : Eff (option string) :=
  fun w => (localStorage w !! key, w, [LsGetItem key]).

Definition setItem (key value : string) : Eff unit :=
  fun w => (tt,
            mkWorld (<[key := value]> (localStorage w)) (headersCommon w)
                    (currentUser w) (isLoading w),
            [LsSetItem key value]).

Definition removeItem (key : string) : Eff unit :=
  fun w => (tt,
            mkWorld (delete key (localStorage w)) (headersCommon w)
                    (currentUser w) (isLoading w),
            [LsRemoveItem key]).

Definition setHeader (header value : string) : Eff unit :=
  fun w => (tt,
            mkWorld (localStorage w) (<[header := value]> (headersCommon w))
                    (currentUser w) (isLoading w),
            [HdrSet header value]).

Definition deleteHeader (header : string) : Eff unit :=
  fun w => (tt,
            mkWorld (localStorage w) (delete header (headersCommon w))
                    (currentUser w) (isLoading w),
            [HdrDelete header]).

Definition setCurrentUser (u : option User) : Eff unit :=
  fun w => (tt,
            mkWorld (localStorage w) (headersCommon w) u (isLoading w),
            []).

Definition setIsLoading (b : bool) : Eff unit :=
  fun w => (tt,
            mkWorld (localStorage w) (headersCommon w) (currentUser w) b,
            []).

(** JavaScript truthiness of a [string | null]: [null] and [''] are
    falsy. *)
Definition truthy (s : option string) : bool :=
  match s with
  | Some t => negb (String.eqb t "")
  | None => false
  end.

(** [`Bearer ${token}`] *)
Definition bearer (token : string) : string := String.append "Bearer " token.

(** ** The axios client and its response interceptor *)

(** [error.response?.status === n] *)
Definition statusIs (n : Z) (error : AxiosError) : bool :=
  match response error with
  | Some r => resp_status r =? n
  | None => false
  end.

(** The rejection handler that [AuthProvider] registers with
    [axios.interceptors.response.use] (AuthContext.tsx 45-53).  It is
    registered by the provider's first effect, ahead of [initializeAuth],
    and ejected only when the provider unmounts, so every request through
    axios meets it.  The rejection itself is passed on by the caller,
    [axios_request]. *)
Definition interceptor (error : AxiosError) : Eff unit :=
  if statusIs 401 error then
    removeItem "token" ;;
    deleteHeader "Authorization" ;;
    setCurrentUser None
  else ret tt.

(** The [Authorization] header a request through axios goes out with:
    the one of the per-request [config] if there is one, else the default
    of [axios.defaults.headers.common]. *)
Definition sentWith (config : option string) (w : World) : option string :=
  match config with
  | Some h => Some h
  | None => headersCommon w !! "Authorization"
  end.

(** One request through the shared axios client; [reply] is how it
    settles.  A rejection passes through the interceptor before the
    caller sees it. *)
Definition axios_request {A} (m : Method) (url : string)
    (config : option string) (reply : AxiosResult A) : Eff (AxiosResult A) :=
  (fun w => (tt, w, [Http ViaAxios m url (sentWith config w)])) ;;
  match reply with
  | Fulfilled _ => ret reply
  | Rejected e => interceptor e ;; ret reply
  end.

(** One request through [window.fetch]: no interceptor sees it. *)
Definition fetch_request {A} (m : Method) (url : string)
    (auth : option string) (reply : FetchResult A) : Eff (FetchResult A) :=
  fun w => (reply, w, [Http ViaFetch m url auth]).

(** ** AuthProvider *)

Section AuthProvider.

(** [jwtDecode] of the jwt-decode package; [None] when it throws. *)
Variable jwtDecode : string -> option JwtPayload.

(** AuthContext.tsx 91-101. *)
Definition fetchUserData (profile : AxiosResult User) : Eff unit :=
  r <- axios_request GET "/api/auth/user" None profile ;;
  match r with
  | Fulfilled data => setCurrentUser (Some data)
  | Rejected _ =>
      removeItem "token" ;;
      deleteHeader "Authorization" ;;
      setCurrentUser None
  end.

(** [decoded.exp && decoded.exp < currentTime] with
    [currentTime = Date.now() / 1000]: the first conjunct is the
    truthiness of a number ([undefined] and [0] are falsy), the second
    compares seconds with milliseconds over a thousand. *)
Definition expired (decoded : JwtPayload) (now : Z) : bool :=
  match exp decoded with
  | Some e => negb (e =? 0) && (e * 1000 <? now)
  | None => false
  end.

(** AuthContext.tsx 62-86; [now] is [Date.now()] in milliseconds and
    [profile] is how the profile request settles if it is issued. *)
Definition initializeAuth (now : Z) (profile : AxiosResult User) : Eff unit :=
  token <- getItem "token" ;;
  (if truthy token then
     let t := default "" token in
     match jwtDecode t with
     | Some decoded =>
         if expired decoded now then
           removeItem "token" ;;
           setCurrentUser None
         else
           setHeader "Authorization" (bearer t) ;;
           fetchUserData profile
     | None =>
         removeItem "token" ;;
         deleteHeader "Authorization" ;;
         setCurrentUser None
     end
   else ret tt) ;;
  setIsLoading false.

End AuthProvider.

(** Body of a successful [POST /api/auth/login]. *)
Record LoginBody := mkLoginBody { token : string; user : User }.

(** [error.response?.data?.message], a string that is used when truthy. *)
Definition serverMessage (error : AxiosError) : option string :=
  match response error with
  | Some r => resp_message r
  | None => None
  end.

Definition pendingApprovalMessage : string :=
  "Your account is pending approval".
Definition loginFailedMessage : string :=
  "Failed to login. Please check your credentials.".
Definition registerFailedMessage : string :=
  "Failed to register. Please try again.".

(** AuthContext.tsx 103-121.  [inl msg] is the rejection with
    [new Error(msg)], [inr tt] the fulfilled promise. *)
Definition login (email password : string) (reply : AxiosResult LoginBody)
    : Eff (string + unit) :=
  r <- axios_request POST "/api/auth/login" None reply ;;
  match r with
  | Fulfilled data =>
      setItem "token" (token data) ;;
      setHeader "Authorization" (bearer (token data)) ;;
      setCurrentUser (Some (user data)) ;;
      ret (inr tt)
  | Rejected error =>
      if statusIs 403 error then ret (inl pendingApprovalMessage)
      else if truthy (serverMessage error)
           then ret (inl (default "" (serverMessage error)))
           else ret (inl loginFailedMessage)
  end.

(** AuthContext.tsx 123-133. *)
Definition register (name email password designation : string)
    (reply : AxiosResult unit) : Eff (string + unit) :=
  r <- axios_request POST "/api/auth/register" None reply ;;
  match r with
  | Fulfilled _ => ret (inr tt)
  | Rejected error =>
      if truthy (serverMessage error)
      then ret (inl (default "" (serverMessage error)))
      else ret (inl registerFailedMessage)
  end.

(** AuthContext.tsx 135-139. *)
Definition logout : Eff unit :=
  removeItem "token" ;;
  deleteHeader "Authorization" ;;
  setCurrentUser None.

(** The derived flags of the context value, AuthContext.tsx 144-145. *)
Definition isAuthenticated (w : World) : bool :=
  match currentUser w with
  | Some u => String.eqb (status u) "approved"
  | None => false
  end.

Definition isAdmin (w : World) : bool :=
  match currentUser w with
  | Some u => String.eqb (role u) "admin"
  | None => false
  end.

(** ** Route guards *)

Inductive Render :=
| LoadingScreen
| Outlet
| Navigate (to : string).

(** guards/AdminRoute.tsx. *)
Definition AdminRoute (w : World) : Render :=
  if isLoading w then LoadingScreen
  else if isAdmin w then Outlet else Navigate "/dashboard".

(** layouts/AuthLayout.tsx, the guard of the login and registration
    screens. *)
Definition AuthLayout (w : World) : Render :=
  if isLoading w then LoadingScreen
  else if isAuthenticated w then Navigate "/dashboard" else Outlet.

(** ** Leaf views: the part that deals with the token and the network *)

Record ClassificationData := mkClassificationData {
  imageUrl : string;
  classification : string
}.

(** What [fetchResult] leaves in the view's state cells. *)
Record ResultView := mkResultView {
  rv_error : option string;
  rv_result : option ClassificationData;
  rv_imageSrc : option string
}.

(** ClassificationResult.tsx, [fetchResult] (lines 26-75): the token is
    read from the drawer and sent by [window.fetch]. *)
Definition fetchResult (id : string)
    (reply : FetchResult ClassificationData) (image : FetchResult string)
    : Eff ResultView :=
  tok <- getItem "token" ;;
  if negb (truthy tok) then
    ret (mkResultView (Some "Authentication token not found") None None)
  else
    let auth := Some (bearer (default "" tok)) in
    r <- fetch_request GET (String.append "/api/classification/" id)
                       auth reply ;;
    match r with
    | FetchOk data =>
        if truthy (Some (imageUrl data)) then
          i <- fetch_request GET (imageUrl data) auth image ;;
          match i with
          | FetchOk blob => ret (mkResultView None (Some data) (Some blob))
          | _ => ret (mkResultView None (Some data) None)
          end
        else ret (mkResultView None (Some data) None)
    | FetchNotOk _ msg =>
        ret (mkResultView
               (Some (if truthy msg then default "" msg
                      else "Failed to fetch classification result"))
               None None)
    | FetchFailed reason => ret (mkResultView (Some reason) None None)
    end.

Record DashboardStatistics := mkDashboardStatistics {
  totalClassifications : Z;
  averageConfidence : Z
}.

Inductive DashboardOutcome :=
| ShowStats (stats : DashboardStatistics)
| RedirectLogin
| ShowError (msg : string).

Definition maxRetries : nat := 3.

(** A plain [Error] thrown by the view itself. *)
Definition plainError : AxiosError := mkAxiosError None None.

(** The retry loop of Dashboard.tsx 60-114.  [replies n] is how attempt
    [n] settles; a fulfilled reply carries [None] when the body is
    missing or lacks a required field.  [inl e] is the error rethrown to
    the outer handler.  The loop leaves by [break] or by [throw] before
    its condition can fail, so [fuel = maxRetries - retryCount] never
    runs out. *)
Fixpoint retryLoop (tok : string)
    (replies : nat -> AxiosResult (option DashboardStatistics))
    (retryCount fuel : nat) : Eff (AxiosError + DashboardStatistics) :=
  match fuel with
  | O => ret (inl plainError)
  | S fuel' =>
      r <- axios_request GET "/api/dashboard/statistics"
                         (Some (bearer tok)) (replies retryCount) ;;
      let failed (e : AxiosError) :=
        if statusIs 401 e then ret (inl e)
        else if Nat.eqb (S retryCount) maxRetries then ret (inl e)
             else retryLoop tok replies (S retryCount) fuel' in
      match r with
      | Fulfilled (Some stats) => ret (inr stats)
      | Fulfilled None => failed plainError
      | Rejected e => failed e
      end
  end.

(** The outer [catch] of [fetchDashboardData] (Dashboard.tsx 115-145)
    and the success path: what the view shows in the end. *)
Definition dashboardOutcome (r : AxiosError + DashboardStatistics)
    : DashboardOutcome :=
  match r with
  | inr stats => ShowStats stats
  | inl error =>
      if statusIs 401 error then RedirectLogin
      else if statusIs 403 error then
        ShowError "You do not have permission to access the dashboard"
      else if bool_decide (code error = Some "ECONNABORTED") then
        ShowError "Request timed out. Please try again."
      else if truthy (serverMessage error) then
        ShowError (default "" (serverMessage error))
      else ShowError "Failed to load dashboard data"
  end.

(** Dashboard.tsx, [fetchDashboardData] (lines 42-150). *)
Definition fetchDashboardData
    (replies : nat -> AxiosResult (option DashboardStatistics))
    : Eff DashboardOutcome :=
  tok <- getItem "token" ;;
  r <- (if negb (truthy tok) then ret (inl plainError)
        else retryLoop (default "" tok) replies 0 maxRetries) ;;
  ret (dashboardOutcome r).

(** Classify.tsx, [fetchClassifications] (lines 33-52); [inl] is the
    text handed to [setError]. *)
Definition fetchClassifications {A} (reply : AxiosResult A)
    : Eff (string + A) :=
  tok <- getItem "token" ;;
  if negb (truthy tok) then ret (inl "Failed to fetch classifications")
  else
    r <- axios_request GET "/api/classifications"
                       (Some (bearer (default "" tok))) reply ;;
    match r with
    | Fulfilled data => ret (inr data)
    | Rejected _ => ret (inl "Failed to fetch classifications")
    end.

(** ** Sessions: what is reachable *)

(** The state at the first render: whatever an earlier visit left in
    [localStorage], axios' stock default header, no user, loading. *)
Definition boot (ls : gmap string string) : World :=
  mkWorld ls {[ "Accept" := "application/json, text/plain, */*" ]} None true.

(** What a user and the mounted views can trigger once the provider has
    initialised, each with the replies of the server. *)
Inductive Action :=
| DoLogin (email password : string) (reply : AxiosResult LoginBody)
| DoRegister (name email password designation : string)
             (reply : AxiosResult unit)
| DoLogout
| DoFetchResult (id : string) (reply : FetchResult ClassificationData)
                (image : FetchResult string)
| DoFetchDashboard (replies : nat -> AxiosResult (option DashboardStatistics))
| DoFetchClassifications (reply : AxiosResult (list string)).

Definition run (a : Action) (w : World) : World :=
  match a with
  | DoLogin e p reply => world (login e p reply w)
  | DoRegister n e p d reply => world (register n e p d reply w)
  | DoLogout => world (logout w)
  | DoFetchResult i reply image => world (fetchResult i reply image w)
  | DoFetchDashboard replies => world (fetchDashboardData replies w)
  | DoFetchClassifications reply => world (fetchClassifications reply w)
  end.

(** Each operation runs to completion before the next one starts. *)
Inductive reachable (jwtDecode : string -> option JwtPayload)
    : World -> Prop :=
| reach_init ls now profile :
    reachable jwtDecode (world (initializeAuth jwtDecode now profile (boot ls)))
| reach_step w a :
    reachable jwtDecode w -> reachable jwtDecode (run a w).

(** ** Reading traces *)

Definition isHttp (e : Event) : bool :=
  match e with Http _ _ _ _ => true | _ => false end.

(** The network calls of a trace. *)
Definition requests (tr : list Event) : list Event := List.filter isHttp tr.

(** Writes to [localStorage] or to the default headers. *)
Definition isWrite (e : Event) : bool :=
  match e with
  | LsSetItem _ _ | LsRemoveItem _ | HdrSet _ _ | HdrDelete _ => true
  | _ => false
  end.


(** The session with token, credential and user gone: the state every
    invalidation path ends in. *)
Definition cleared (w : World) : World :=
  mkWorld (delete "token" (localStorage w))
          (delete "Authorization" (headersCommon w)) None (isLoading w).

(** Whoever is the current user has a persisted token, attached as the
    default credential. *)
Definition credentialed (w : World) : Prop :=
  forall u, currentUser w = Some u ->
    exists t, localStorage w !! "token" = Some t /\
              headersCommon w !! "Authorization" = Some (bearer t).

(** An outcome whose only change to the state, if any, is the
    interceptor's invalidation. *)
Definition framed {A} (r : A * World * list Event) (w : World) : Prop :=
  (world r = w /\ List.filter isWrite (trace r) = []) \/
  (world r = cleared w /\
   List.filter isWrite (trace r) =
     [LsRemoveItem "token"; HdrDelete "Authorization"]).

(** A reply that the interceptor reacts to. *)
Definition is401 {A} (reply : AxiosResult A) : bool :=
  match reply with
  | Rejected e => statusIs 401 e
  | Fulfilled _ => false
  end.

(** The claims' own notions of expiry, in milliseconds like
    [Date.now()]. *)
Definition expInPast (p : JwtPayload) (now : Z) : Prop :=
  exists e, exp p = Some e /\ e * 1000 < now.

Definition unexpired (p : JwtPayload) (now : Z) : Prop :=
  forall e, exp p = Some e -> now <= e * 1000.

(** ** Fixtures *)

(** A decoder for four named tokens; anything else does not decode. *)
Definition sampleDecode (t : string) : option JwtPayload :=
  if String.eqb t "live.jwt" then Some (mkPayload (Some 2000000000))
  else if String.eqb t "stale.jwt" then Some (mkPayload (Some 1000))
  else if String.eqb t "epoch.jwt" then Some (mkPayload (Some 0))
  else if String.eqb t "noexp.jwt" then Some (mkPayload None)
  else None.

(** 2023-11-14T22:13:20Z in milliseconds. *)
Definition sampleNow : Z := 1700000000000.

Definition approvedUser : User :=
  mkUser "7" "ana@lab.org" "Ana" "user" "Doctor" "approved".
Definition pendingUser : User :=
  mkUser "8" "bo@lab.org" "Bo" "user" "Nurse" "pending".
Definition suspendedAdmin : User :=
  mkUser "1" "root@lab.org" "Root" "admin" "Doctor" "suspended".
Definition approvedAdmin : User :=
  mkUser "2" "chief@lab.org" "Chief" "admin" "Doctor" "approved".

Definition httpError (st : Z) (msg : option string) : AxiosError :=
  mkAxiosError (Some (mkErrorResponse st msg)) None.

(** A signed-in session as [login] leaves it. *)
Definition signedIn (t : string) (u : User) : World :=
  mkWorld {[ "token" := t ]}
          (<[ "Authorization" := bearer t ]>
             {[ "Accept" := "application/json, text/plain, */*" ]})
          (Some u) false.

(** A session with nothing in it. *)
Definition signedOut : World :=
  mkWorld ∅ {[ "Accept" := "application/json, text/plain, */*" ]} None false.

(** ** Views that rely on the default credential *)

(** ManageUsers.tsx, [fetchUsers]: the request has no header of its
    own.  [inl] is the text of the error toast. *)
Definition fetchUsers {A} (reply : AxiosResult A) : Eff (string + A) :=
  r <- axios_request GET "/api/admin/users" None reply ;;
  match r with
  | Fulfilled data => ret (inr data)
  | Rejected _ => ret (inl "Failed to load users")
  end.

(** AdminDashboard.tsx, [fetchAdminStats]: a rejection is only logged. *)
Definition fetchAdminStats {A} (reply : AxiosResult A) : Eff (option A) :=
  r <- axios_request GET "/api/admin/statistics" None reply ;;
  match r with
  | Fulfilled data => ret (Some data)
  | Rejected _ => ret None
  end.

(** ** The sign-in and registration forms *)

Inductive Toast :=
| ToastSuccess (msg : string)
| ToastError (msg : string).

(** What a [catch] clause receives: the message of the error and its
    [response] property, if it has one. *)
Record Thrown := mkThrown {
  thrown_message : string;
  thrown_response : option ErrorResponse
}.

(** [new Error(msg)]: an error object without a [response]. *)
Definition newError (msg : string) : Thrown := mkThrown msg None.

(** [error.response?.data?.message || fallback] *)
Definition responseMessageOr (fallback : string) (error : Thrown) : string :=
  match thrown_response error with
  | Some r => if truthy (resp_message r) then default "" (resp_message r)
              else fallback
  | None => fallback
  end.

(** [error.response?.status === n] on a caught value. *)
Definition thrownStatusIs (n : Z) (error : Thrown) : bool :=
  match thrown_response error with
  | Some r => resp_status r =? n
  | None => false
  end.

(** Login.tsx, [onSubmit]: where the form navigates to, if anywhere, and
    the toast it shows. *)
Definition Login_onSubmit (email password : string)
    (reply : AxiosResult LoginBody) : Eff (option string * Toast) :=
  r <- login email password reply ;;
  match r with
  | inr _ => ret (Some "/dashboard", ToastSuccess "Successfully logged in")
  | inl msg =>
      let error := newError msg in
      let message := responseMessageOr "Failed to login" error in
      if thrownStatusIs 403 error
      then ret (None, ToastError "Your account is pending approval")
      else ret (None, ToastError message)
  end.

(** Register.tsx, [onSubmit]. *)
Definition Register_onSubmit (name email password designation : string)
    (reply : AxiosResult unit) : Eff (option string * Toast) :=
  r <- register name email password designation reply ;;
  match r with
  | inr _ => ret (Some "/login", ToastSuccess "Account created successfully.")
  | inl msg =>
      ret (None, ToastError (responseMessageOr "Failed to register"
                               (newError msg)))
  end.

(** ** Navigation *)

Module Navigation.

(** A sidebar entry, without its icon. *)
Record NavItem := mkNavItem { nav_name : string; href : string }.

(** [currentUser?.designation === d] *)
Definition designationIs (d : string) (u : option User) : bool :=
  match u with
  | Some x => String.eqb (designation x) d
  | None => false
  end.

(** navigation/Sidebar.tsx. *)
Definition Sidebar (u : option User) : list NavItem :=
  if designationIs "Doctor" u || designationIs "Nurse" u then
    [mkNavItem "Dashboard" "/dashboard";
     mkNavItem "History" "/history";
     mkNavItem "Classify" "/classify-patient"]
  else if designationIs "Medical Technician" u then
    [mkNavItem "Dashboard" "/dashboard";
     mkNavItem "Upload" "/upload";
     mkNavItem "History" "/history"]
  else
    [mkNavItem "Dashboard" "/dashboard";
     mkNavItem "History" "/history"].

(** navigation/MobileSidebar.tsx, which repeats the table. *)
Definition MobileSidebar (u : option User) : list NavItem :=
  if designationIs "Doctor" u || designationIs "Nurse" u then
    [mkNavItem "Dashboard" "/dashboard";
     mkNavItem "History" "/history";
     mkNavItem "Classify" "/classify-patient"]
  else if designationIs "Medical Technician" u then
    [mkNavItem "Dashboard" "/dashboard";
     mkNavItem "Upload" "/upload";
     mkNavItem "History" "/history"]
  else
    [mkNavItem "Dashboard" "/dashboard";
     mkNavItem "History" "/history"].

(** navigation/AdminSidebar.tsx. *)
Definition AdminSidebar : list NavItem :=
  [mkNavItem "Admin Dashboard" "/admin";
   mkNavItem "Manage Users" "/admin/users"].

(** The element a group of routes is nested under in App.tsx. *)
Inductive Guard := UnderAuthLayout | UnderPrivateRoute | UnderAdminRoute.

(** The [<Route path=...>] entries of App.tsx with their guard. *)
Definition routes : list (string * Guard) :=
  [("/login", UnderAuthLayout);
   ("/register", UnderAuthLayout);
   ("/dashboard", UnderPrivateRoute);
   ("/upload", UnderPrivateRoute);
   ("/classify-patient", UnderPrivateRoute);
   ("/result/:id", UnderPrivateRoute);
   ("/history", UnderPrivateRoute);
   ("/admin", UnderAdminRoute);
   ("/admin/users", UnderAdminRoute)].

End Navigation.

(** ** ClassificationHistory: the sort header *)

Module History.

Inductive SortField :=
| createdAt | patientId | patientName | userName | classification
| confidence.

Inductive SortDirection := asc | desc.

Record SortState := mkSortState {
  sortField : SortField;
  sortDirection : SortDirection
}.

Definition SortField_eqb (a b : SortField) : bool :=
  match a, b with
  | createdAt, createdAt | patientId, patientId
  | patientName, patientName | userName, userName
  | classification, classification | confidence, confidence => true
  | _, _ => false
  end.

(** [useState('createdAt')], [useState('desc')]. *)
Definition initial : SortState := mkSortState createdAt desc.

(** ClassificationHistory.tsx, [handleSort]. *)
Definition handleSort (field : SortField) (s : SortState) : SortState :=
  if SortField_eqb field (sortField s) then
    mkSortState (sortField s)
      (match sortDirection s with asc => desc | desc => asc end)
  else mkSortState field asc.

End History.

(** ** Classify: status changes *)

Module Classify.

Inductive Status := pending | reviewed | reported.

(** [interface Classification]; the numbers are only carried along. *)
Record Classification := mkClassification {
  id : Z;
  image_path : string;
  prediction : string;
  confidence : Z;
  created_at : string;
  patient_id : option string;
  notes : option string;
  status : Status
}.

Definition statusText (s : Status) : string :=
  match s with
  | pending => "pending"
  | reviewed => "reviewed"
  | reported => "reported"
  end.

(** [{ ...c, status }] *)
Definition withStatus (s : Status) (c : Classification) : Classification :=
  mkClassification (id c) (image_path c) (prediction c) (confidence c)
                   (created_at c) (patient_id c) (notes c) s.

(** [{ ...c, status: 'reported', notes: reportNotes }] *)
Definition withReport (reportNotes : string) (c : Classification)
    : Classification :=
  mkClassification (id c) (image_path c) (prediction c) (confidence c)
                   (created_at c) (patient_id c) (Some reportNotes) reported.

(** [prev.map(c => c.id === classificationId ? f(c) : c)] *)
Definition mapAt (classificationId : Z)
    (f : Classification -> Classification)
    (prev : list Classification) : list Classification :=
  List.map (fun c => if id c =? classificationId then f c else c) prev.

(** Classify.tsx, [updateClassificationStatus] (lines 100-123): the new
    list and the toast. *)
Definition updateClassificationStatus (classificationId : Z) (s : Status)
    (reply : AxiosResult unit) (classifications : list Classification)
    : Eff (list Classification * Toast) :=
  tok <- getItem "token" ;;
  if negb (truthy tok) then
    ret (classifications, ToastError "Failed to update status")
  else
    r <- axios_request PATCH
           ("/api/classifications/" +:+ pretty classificationId +:+ "/status")
           (Some (bearer (default "" tok))) reply ;;
    match r with
    | Fulfilled _ =>
        ret (mapAt classificationId (withStatus s) classifications,
             ToastSuccess "Status updated successfully")
    | Rejected _ =>
        ret (classifications, ToastError "Failed to update status")
    end.

(** The state cells [generateReport] writes. *)
Record ReportState := mkReportState {
  classifications : list Classification;
  selectedClassification : option Classification;
  reportNotes : string
}.

(** Classify.tsx, [generateReport] (lines 56-98), without the download
    link it clicks. *)
Definition generateReport (classificationId : Z)
    (reply : AxiosResult unit) (st : ReportState)
    : Eff (ReportState * Toast) :=
  tok <- getItem "token" ;;
  if negb (truthy tok) then
    ret (st, ToastError "Failed to generate report")
  else
    r <- axios_request POST
           ("/api/classifications/" +:+ pretty classificationId +:+ "/report")
           (Some (bearer (default "" tok))) reply ;;
    match r with
    | Fulfilled _ =>
        ret (mkReportState
               (mapAt classificationId (withReport (reportNotes st))
                      (classifications st))
               None "",
             ToastSuccess "Report generated successfully")
    | Rejected _ => ret (st, ToastError "Failed to generate report")
    end.

End Classify.

(** ** ManageUsers: the confirmed action *)

Module ManageUsers.

(** [interface User] of ManageUsers.tsx. *)
Record User := mkUser {
  id : string;
  name : string;
  email : string;
  role : string;
  status : string;
  createdAt : string;
  lastLogin : option string
}.

Inductive ActionType := act_delete | act_suspend | act_promote | act_demote.

Record State := mkState {
  users : list User;
  userToModify : option User;
  showConfirmDialog : bool;
  actionType : ActionType
}.

(** [{ ...user, status: s }] and [{ ...user, role: r }] *)
Definition withStatus (s : string) (u : User) : User :=
  mkUser (id u) (name u) (email u) (role u) s (createdAt u) (lastLogin u).
Definition withRole (r : string) (u : User) : User :=
  mkUser (id u) (name u) (email u) r (status u) (createdAt u) (lastLogin u).

(** [userToModify.status === 'approved' ? 'suspended' : 'approved'] *)
Definition newStatus (target : User) : string :=
  if String.eqb (status target) "approved" then "suspended" else "approved".

(** [users.map(user => user.id === target.id ? f(user) : user)] *)
Definition mapAt (target : User) (f : User -> User) (us : list User)
    : list User :=
  List.map (fun u => if String.eqb (id u) (id target) then f u else u) us.

(** [openConfirmDialog] and [closeConfirmDialog]. *)
Definition openConfirmDialog (u : User) (a : ActionType) (st : State)
    : State :=
  mkState (users st) (Some u) true a.
Definition closeConfirmDialog (st : State) : State :=
  mkState (users st) None false (actionType st).

(** Method, endpoint, new list and success text of each action. *)
Definition endpoint (a : ActionType) (target : User) : Method * string :=
  match a with
  | act_delete => (DELETE, "/api/admin/users/" +:+ id target)
  | act_suspend => (PATCH, "/api/admin/users/" +:+ id target +:+ "/status")
  | act_promote | act_demote =>
      (PATCH, "/api/admin/users/" +:+ id target +:+ "/role")
  end.

Definition applied (a : ActionType) (target : User) (us : list User)
    : list User :=
  match a with
  | act_delete =>
      List.filter (fun u => negb (String.eqb (id u) (id target))) us
  | act_suspend => mapAt target (withStatus (newStatus target)) us
  | act_promote => mapAt target (withRole "admin") us
  | act_demote => mapAt target (withRole "user") us
  end.

Definition successMessage (a : ActionType) (target : User) : string :=
  match a with
  | act_delete => "User " +:+ name target +:+ " has been deleted"
  | act_suspend =>
      "User " +:+ name target +:+ " has been " +:+ newStatus target
  | act_promote => "User " +:+ name target +:+ " has been promoted to admin"
  | act_demote => "User " +:+ name target +:+ " has been demoted to user"
  end.

(** ManageUsers.tsx, [handleUserAction]: the state afterwards and the
    toast, if any. *)
Definition handleUserAction (reply : AxiosResult unit) (st : State)
    : Eff (State * option Toast) :=
  match userToModify st with
  | None => ret (st, None)
  | Some target =>
      r <- axios_request (fst (endpoint (actionType st) target))
                         (snd (endpoint (actionType st) target)) None reply ;;
      match r with
      | Fulfilled _ =>
          ret (closeConfirmDialog
                 (mkState (applied (actionType st) target (users st))
                          (userToModify st) (showConfirmDialog st)
                          (actionType st)),
               Some (ToastSuccess (successMessage (actionType st) target)))
      | Rejected _ =>
          ret (closeConfirmDialog st,
               Some (ToastError "Failed to perform action"))
      end
  end.

End ManageUsers.

(** The default credential, when one is attached, is the bearer of the
    persisted token. *)
Definition noStaleCredential (w : World) : Prop :=
  forall h, headersCommon w !! "Authorization" = Some h ->
    exists t, localStorage w !! "token" = Some t /\ h = bearer t.

(** The [Authorization] header of a request event. *)
Definition authorizationOf (e : Event) : option string :=
  match e with
  | Http _ _ _ auth => auth
  | _ => None
  end.

(** An attempt of the dashboard's retry loop that ends in its [catch]
    without a 401: the loop goes on to the next attempt, if one is
    left. *)
Definition retryable (r : AxiosResult (option DashboardStatistics)) : bool :=
  match r with
  | Fulfilled (Some _) => false
  | Fulfilled None => true
  | Rejected e => negb (statusIs 401 e)
  end.

(** The request of the dashboard, as sent with token [tok]. *)
Definition statisticsRequest (tok : string) : Event :=
  Http ViaAxios GET "/api/dashboard/statistics" (Some (bearer tok)).

(** * Properties *)

(** ** The monad and the primitive effects *)

Lemma bind_run {A B} (m : Eff A) (k : A -> Eff B) (w : World) :
  bind m k w =
  (result (k (result (m w)) (world (m w))),
   world (k (result (m w)) (world (m w))),
   trace (m w) ++ trace (k (result (m w)) (world (m w)))).
Proof.
  unfold bind, result, world, trace.
  destruct (m w) as [[a w1] t1]; simpl.
  destruct (k a w1) as [[b w2] t2]; reflexivity.
Qed.

Lemma bind_ret_run {A B} (m : Eff A) (f : A -> B) (w : World) :
  bind m (fun a => ret (f a)) w = (f (result (m w)), world (m w), trace (m w)).
Proof.
  rewrite bind_run. unfold ret, result, world, trace; simpl.
  by rewrite app_nil_r.
Qed.

Lemma getItem_run (key : string) (w : World) :
  getItem key w = (localStorage w !! key, w, [LsGetItem key]).
Proof. reflexivity. Qed.

Lemma World_eq (w1 w2 : World) :
  localStorage w1 = localStorage w2 ->
  headersCommon w1 = headersCommon w2 ->
  currentUser w1 = currentUser w2 ->
  isLoading w1 = isLoading w2 ->
  w1 = w2.
Proof. destruct w1, w2; simpl; intros; subst; reflexivity. Qed.

Lemma cleared_idemp (w : World) : cleared (cleared w) = cleared w.
Proof.
  apply World_eq; simpl; try reflexivity; apply delete_delete_eq.
Qed.

Lemma cleared_id (w : World) :
  localStorage w !! "token" = None ->
  headersCommon w !! "Authorization" = None ->
  currentUser w = None ->
  cleared w = w.
Proof.
  intros Hls Hh Hu. apply World_eq; simpl.
  - by apply delete_id.
  - by apply delete_id.
  - by rewrite Hu.
  - reflexivity.
Qed.

Lemma cleared_token (w : World) : localStorage (cleared w) !! "token" = None.
Proof. apply lookup_delete_eq. Qed.

Lemma cleared_header (w : World) :
  headersCommon (cleared w) !! "Authorization" = None.
Proof. apply lookup_delete_eq. Qed.

Lemma logout_run (w : World) :
  logout w = (tt, cleared w, [LsRemoveItem "token"; HdrDelete "Authorization"]).
Proof. reflexivity. Qed.

Lemma interceptor_run (e : AxiosError) (w : World) :
  interceptor e w =
  if statusIs 401 e
  then (tt, cleared w, [LsRemoveItem "token"; HdrDelete "Authorization"])
  else (tt, w, []).
Proof. unfold interceptor. destruct (statusIs 401 e); reflexivity. Qed.

Lemma axios_request_run {A} m url config (reply : AxiosResult A) (w : World) :
  axios_request m url config reply w =
  (reply,
   if is401 reply then cleared w else w,
   Http ViaAxios m url (sentWith config w) ::
   if is401 reply then [LsRemoveItem "token"; HdrDelete "Authorization"]
   else []).
Proof.
  unfold axios_request. rewrite bind_run. simpl.
  destruct reply as [d|e]; simpl; [reflexivity|].
  rewrite bind_run, interceptor_run.
  destruct (statusIs 401 e); reflexivity.
Qed.

Lemma fetch_request_run {A} m url auth (reply : FetchResult A) (w : World) :
  fetch_request m url auth reply w = (reply, w, [Http ViaFetch m url auth]).
Proof. reflexivity. Qed.

(** ** initializeAuth, case by case *)

Lemma truthy_Some (t : string) : t <> "" -> truthy (Some t) = true.
Proof.
  intros Hne. unfold truthy.
  destruct (String.eqb_spec t ""); [contradiction | reflexivity].
Qed.

Lemma unexpired_not_expired p now : unexpired p now -> expired p now = false.
Proof.
  unfold unexpired, expired. intros H.
  destruct (exp p) as [e|]; [|reflexivity].
  specialize (H e eq_refl).
  apply andb_false_iff. right. apply Z.ltb_ge. exact H.
Qed.

Lemma fetchUserData_run (profile : AxiosResult User) (w : World) :
  fetchUserData profile w =
  match profile with
  | Fulfilled u =>
      (tt,
       mkWorld (localStorage w) (headersCommon w) (Some u) (isLoading w),
       [Http ViaAxios GET "/api/auth/user" (sentWith None w)])
  | Rejected e =>
      (tt, cleared w,
       Http ViaAxios GET "/api/auth/user" (sentWith None w) ::
       (if statusIs 401 e
        then [LsRemoveItem "token"; HdrDelete "Authorization"] else []) ++
       [LsRemoveItem "token"; HdrDelete "Authorization"])
  end.
Proof.
  unfold fetchUserData. rewrite bind_run, axios_request_run.
  destruct profile as [u|e]; simpl; [reflexivity|].
  unfold world, result, trace; simpl.
  destruct (statusIs 401 e); simpl; [|reflexivity].
  by rewrite !delete_delete_eq.
Qed.

(** Nothing stored, or the empty string: the token branch is skipped,
    whatever is in the drawer stays there and the session is resolved. *)
Lemma initializeAuth_falsy_token
    (jwtDecode : string -> option JwtPayload) (now : Z)
    (profile : AxiosResult User) (w : World) :
  truthy (localStorage w !! "token") = false ->
  initializeAuth jwtDecode now profile w =
  (tt,
   mkWorld (localStorage w) (headersCommon w) (currentUser w) false,
   [LsGetItem "token"]).
Proof.
  intros Hfalsy. unfold initializeAuth. rewrite bind_run, getItem_run.
  cbn [result world trace fst snd]. by rewrite Hfalsy.
Qed.

Section InitializeAuth.

Variable jwtDecode : string -> option JwtPayload.
Variables (now : Z) (profile : AxiosResult User) (w : World) (t : string).
Hypothesis Hstored : localStorage w !! "token" = Some t.
Hypothesis Htruthy : t <> "".

Lemma initializeAuth_undecodable :
  jwtDecode t = None ->
  initializeAuth jwtDecode now profile w =
  (tt,
   mkWorld (delete "token" (localStorage w))
           (delete "Authorization" (headersCommon w)) None false,
   [LsGetItem "token"; LsRemoveItem "token"; HdrDelete "Authorization"]).
Proof.
  intros Hdec. unfold initializeAuth, bind, getItem.
  rewrite Hstored, (truthy_Some _ Htruthy). simpl. rewrite Hdec.
  reflexivity.
Qed.

Lemma initializeAuth_expired p :
  jwtDecode t = Some p -> expired p now = true ->
  initializeAuth jwtDecode now profile w =
  (tt,
   mkWorld (delete "token" (localStorage w)) (headersCommon w) None false,
   [LsGetItem "token"; LsRemoveItem "token"]).
Proof.
  intros Hdec Hexp. unfold initializeAuth, bind, getItem.
  rewrite Hstored, (truthy_Some _ Htruthy). simpl. rewrite Hdec, Hexp.
  reflexivity.
Qed.

Lemma initializeAuth_fetched p u :
  jwtDecode t = Some p -> expired p now = false -> profile = Fulfilled u ->
  initializeAuth jwtDecode now profile w =
  (tt,
   mkWorld (localStorage w)
           (<["Authorization" := bearer t]> (headersCommon w))
           (Some u) false,
   [LsGetItem "token"; HdrSet "Authorization" (bearer t);
    Http ViaAxios GET "/api/auth/user" (Some (bearer t))]).
Proof.
  intros Hdec Hexp ->. unfold initializeAuth, bind, getItem.
  rewrite Hstored, (truthy_Some _ Htruthy). simpl. rewrite Hdec, Hexp.
  simpl. rewrite lookup_insert_eq. reflexivity.
Qed.

Lemma initializeAuth_fetch_failed p e :
  jwtDecode t = Some p -> expired p now = false -> profile = Rejected e ->
  world (initializeAuth jwtDecode now profile w) =
    mkWorld (delete "token" (localStorage w))
            (delete "Authorization" (headersCommon w)) None false /\
  requests (trace (initializeAuth jwtDecode now profile w)) =
    [Http ViaAxios GET "/api/auth/user" (Some (bearer t))].
Proof.
  intros Hdec Hexp ->. unfold initializeAuth, bind, getItem.
  rewrite Hstored, (truthy_Some _ Htruthy). simpl. rewrite Hdec, Hexp.
  rewrite fetchUserData_run. simpl. rewrite delete_insert_eq.
  split; [reflexivity|].
  rewrite lookup_insert_eq. destruct (statusIs 401 e); reflexivity.
Qed.

End InitializeAuth.

(** ** Initialisation with a persisted token *)

Lemma initializeAuth_fetch_once
    (jwtDecode : string -> option JwtPayload) (now : Z)
    (profile : AxiosResult User) (w : World) (t : string) (p : JwtPayload) :
  localStorage w !! "token" = Some t ->
  t <> "" ->
  jwtDecode t = Some p ->
  expired p now = false ->
  requests (trace (initializeAuth jwtDecode now profile w)) =
    [Http ViaAxios GET "/api/auth/user" (Some (bearer t))] /\
  isLoading (world (initializeAuth jwtDecode now profile w)) = false.
Proof.
  intros Hls Hne Hdec Hexp. destruct profile as [u|e].
  - by rewrite (initializeAuth_fetched jwtDecode now _ w t Hls Hne p u
                  Hdec Hexp eq_refl).
  - destruct (initializeAuth_fetch_failed jwtDecode now _ w t Hls Hne p e
                Hdec Hexp eq_refl) as [Hw Htr].
    by rewrite Hw, Htr.
Qed.

(** C1, as the code has it: for a stored token that decodes and is not
    expired, [initializeAuth] issues exactly one request, the profile
    fetch [GET /api/auth/user] carrying that token, and the session is
    resolved.  When the fetch succeeds the fetched user becomes the
    current user; with status ['approved'] the session is authenticated;
    with any other status it is not authenticated, and the persisted
    token and the attached credential stay in place. *)
Theorem initializeAuth_valid_token
    (jwtDecode : string -> option JwtPayload) (now : Z)
    (profile : AxiosResult User) (w : World) (t : string) (p : JwtPayload) :
  localStorage w !! "token" = Some t ->
  t <> "" ->
  jwtDecode t = Some p ->
  unexpired p now ->
  let r := initializeAuth jwtDecode now profile w in
  requests (trace r) = [Http ViaAxios GET "/api/auth/user" (Some (bearer t))] /\
  isLoading (world r) = false /\
  forall u, profile = Fulfilled u ->
    currentUser (world r) = Some u /\
    (status u = "approved" -> isAuthenticated (world r) = true) /\
    (status u <> "approved" ->
       isAuthenticated (world r) = false /\
       localStorage (world r) !! "token" = Some t /\
       headersCommon (world r) !! "Authorization" = Some (bearer t)).
Proof.
  intros Hls Hne Hdec Hun r. subst r.
  apply unexpired_not_expired in Hun.
  destruct (initializeAuth_fetch_once jwtDecode now profile w t p
              Hls Hne Hdec Hun) as [Hreq Hload].
  split; [exact Hreq|]. split; [exact Hload|].
  intros u ->.
  rewrite (initializeAuth_fetched jwtDecode now _ w t Hls Hne p u
             Hdec Hun eq_refl).
  unfold world, isAuthenticated; simpl.
  split; [reflexivity|]. split.
  - intros ->. reflexivity.
  - intros Hst. split; [|split].
    + by apply String.eqb_neq.
    + exact Hls.
    + apply lookup_insert_eq.
Qed.

(** C1, witness: the token ["live.jwt"] found at start, profile of an
    approved user. *)
Lemma initializeAuth_valid_token_witness :
  let r := initializeAuth sampleDecode sampleNow (Fulfilled approvedUser)
             (boot {[ "token" := "live.jwt" ]}) in
  requests (trace r) =
    [Http ViaAxios GET "/api/auth/user" (Some (bearer "live.jwt"))] /\
  isLoading (world r) = false /\
  forall u, Fulfilled approvedUser = Fulfilled u ->
    currentUser (world r) = Some u /\
    (status u = "approved" -> isAuthenticated (world r) = true) /\
    (status u <> "approved" ->
       isAuthenticated (world r) = false /\
       localStorage (world r) !! "token" = Some "live.jwt" /\
       headersCommon (world r) !! "Authorization" = Some (bearer "live.jwt")).
Proof.
  apply (initializeAuth_valid_token sampleDecode sampleNow
           (Fulfilled approvedUser) (boot {[ "token" := "live.jwt" ]})
           "live.jwt" (mkPayload (Some 2000000000))).
  - reflexivity.
  - discriminate.
  - reflexivity.
  - intros e [= <-]. vm_compute. discriminate.
Defined.

(** C1, counterexample: the token is valid and unexpired and the profile
    fetch succeeds with a user whose status is ['pending']; the session
    is not authenticated, yet the token is still persisted and still
    attached. *)
Lemma initializeAuth_pending_keeps_token :
  let w := boot {[ "token" := "live.jwt" ]} in
  let r := initializeAuth sampleDecode sampleNow (Fulfilled pendingUser) w in
  (localStorage w !! "token" = Some "live.jwt" /\
   sampleDecode "live.jwt" = Some (mkPayload (Some 2000000000)) /\
   unexpired (mkPayload (Some 2000000000)) sampleNow /\
   status pendingUser <> "approved") /\
  isAuthenticated (world r) = false /\
  ~ (localStorage (world r) !! "token" = None) /\
  localStorage (world r) !! "token" = Some "live.jwt" /\
  headersCommon (world r) !! "Authorization" = Some "Bearer live.jwt".
Proof.
  simpl. repeat split; try reflexivity; try discriminate.
  intros e [= <-]. vm_compute. discriminate.
Qed.

(** C4, at the failing input: a token whose [exp] is [0], the epoch, is
    in the past at [sampleNow]; [initializeAuth] nevertheless attaches it
    and issues the profile fetch, and keeps it when the fetch succeeds. *)
Theorem initializeAuth_epoch_exp_fetches :
  let w := boot {[ "token" := "epoch.jwt" ]} in
  let r := initializeAuth sampleDecode sampleNow (Fulfilled approvedUser) w in
  (sampleDecode "epoch.jwt" = Some (mkPayload (Some 0)) /\
   expInPast (mkPayload (Some 0)) sampleNow) /\
  requests (trace r) =
    [Http ViaAxios GET "/api/auth/user" (Some "Bearer epoch.jwt")] /\
  localStorage (world r) !! "token" = Some "epoch.jwt" /\
  isAuthenticated (world r) = true.
Proof.
  simpl. repeat split; try reflexivity.
  exists 0. split; [reflexivity | reflexivity].
Qed.

(** What C4 says does hold for every [exp] other than [0]: the token is
    removed, no user is set, the session is resolved and no request goes
    out. *)
Lemma initializeAuth_expired_token
    (jwtDecode : string -> option JwtPayload) (now : Z)
    (profile : AxiosResult User) (w : World) (t : string) (p : JwtPayload)
    (e : Z) :
  localStorage w !! "token" = Some t ->
  t <> "" ->
  jwtDecode t = Some p ->
  exp p = Some e -> e <> 0 -> e * 1000 < now ->
  let r := initializeAuth jwtDecode now profile w in
  requests (trace r) = [] /\
  localStorage (world r) !! "token" = None /\
  currentUser (world r) = None /\
  isAuthenticated (world r) = false /\
  isLoading (world r) = false.
Proof.
  intros Hls Hne Hdec He Hnz Hlt r. subst r.
  assert (Hexp : expired p now = true).
  { unfold expired. rewrite He. apply andb_true_iff. split.
    - apply negb_true_iff. by apply Z.eqb_neq.
    - by apply Z.ltb_lt. }
  rewrite (initializeAuth_expired jwtDecode now profile w t Hls Hne p Hdec Hexp).
  unfold world, trace, isAuthenticated; simpl.
  repeat split; try reflexivity. apply lookup_delete_eq.
Qed.

(** C10: a stored token that [jwtDecode] rejects is removed together
    with the default credential, no user is set, the session is resolved
    as not authenticated and no request goes out; a stored token that
    decodes to a payload without [exp] is attached and the profile fetch
    is issued, once. *)
Theorem initializeAuth_undecodable_or_no_exp
    (jwtDecode : string -> option JwtPayload) (now : Z)
    (profile : AxiosResult User) (w : World) (t : string) :
  localStorage w !! "token" = Some t ->
  t <> "" ->
  let r := initializeAuth jwtDecode now profile w in
  (jwtDecode t = None ->
     localStorage (world r) !! "token" = None /\
     headersCommon (world r) !! "Authorization" = None /\
     currentUser (world r) = None /\
     isAuthenticated (world r) = false /\
     isLoading (world r) = false /\
     requests (trace r) = []) /\
  (forall p, jwtDecode t = Some p -> exp p = None ->
     expired p now = false /\
     requests (trace r) =
       [Http ViaAxios GET "/api/auth/user" (Some (bearer t))]).
Proof.
  intros Hls Hne r. subst r. split.
  - intros Hdec.
    rewrite (initializeAuth_undecodable jwtDecode now profile w t Hls Hne Hdec).
    unfold world, trace, isAuthenticated; simpl.
    repeat split; try reflexivity; apply lookup_delete_eq.
  - intros p Hdec Hexp.
    assert (Hun : unexpired p now).
    { intros e He. congruence. }
    apply unexpired_not_expired in Hun.
    split; [exact Hun|].
    apply (initializeAuth_fetch_once jwtDecode now profile w t p
             Hls Hne Hdec Hun).
Qed.

(** C10, witness: the stored token ["garbage"], which [sampleDecode]
    rejects. *)
Lemma initializeAuth_undecodable_or_no_exp_witness :
  let r := initializeAuth sampleDecode sampleNow (Fulfilled approvedUser)
             (boot {[ "token" := "garbage" ]}) in
  (sampleDecode "garbage" = None ->
     localStorage (world r) !! "token" = None /\
     headersCommon (world r) !! "Authorization" = None /\
     currentUser (world r) = None /\
     isAuthenticated (world r) = false /\
     isLoading (world r) = false /\
     requests (trace r) = []) /\
  (forall p, sampleDecode "garbage" = Some p -> exp p = None ->
     expired p sampleNow = false /\
     requests (trace r) =
       [Http ViaAxios GET "/api/auth/user" (Some (bearer "garbage"))]).
Proof.
  apply (initializeAuth_undecodable_or_no_exp sampleDecode sampleNow
           (Fulfilled approvedUser) (boot {[ "token" := "garbage" ]})
           "garbage").
  - reflexivity.
  - discriminate.
Defined.

(** ** Forced invalidation *)

Lemma statusIs_exclusive (n m : Z) (e : AxiosError) :
  n <> m -> statusIs n e = true -> statusIs m e = false.
Proof.
  unfold statusIs. destruct (response e) as [r|]; [|done].
  intros Hnm Hn. apply Z.eqb_eq in Hn. apply Z.eqb_neq. congruence.
Qed.

(** C3, as the code has it: when a request issued through the shared
    axios client is rejected with status 401, the interceptor leaves no
    persisted token, no default credential and no user, so the session is
    not authenticated; running the interceptor again, on that state or
    twice from any state, changes nothing more. *)
Theorem interceptor_on_401 {A : Type} (m : Method) (url : string)
    (config : option string) (e : AxiosError) (w : World) :
  statusIs 401 e = true ->
  let w' := world (axios_request m url config (@Rejected A e) w) in
  localStorage w' !! "token" = None /\
  headersCommon w' !! "Authorization" = None /\
  currentUser w' = None /\
  isAuthenticated w' = false /\
  world (interceptor e w') = w' /\
  forall v, world (interceptor e (world (interceptor e v))) =
            world (interceptor e v).
Proof.
  intros H401 w'. subst w'.
  assert (Hrun : forall v, world (interceptor e v) = cleared v).
  { intros v. by rewrite interceptor_run, H401. }
  rewrite axios_request_run. simpl. rewrite H401.
  replace (world (Rejected e, cleared w,
                  [Http ViaAxios m url (sentWith config w);
                   LsRemoveItem "token"; HdrDelete "Authorization"]))
    with (cleared w) by reflexivity.
  split; [apply cleared_token|]. split; [apply cleared_header|].
  split; [reflexivity|]. split; [reflexivity|].
  split; [by rewrite Hrun, cleared_idemp|].
  intros v. by rewrite !Hrun, cleared_idemp.
Qed.

(** C3, witness: [GET /api/classifications] answered with 401 in a
    signed-in session. *)
Lemma interceptor_on_401_witness :
  let e := httpError 401 None in
  let w' := world (axios_request GET "/api/classifications" None
                     (@Rejected (list string) e)
                     (signedIn "live.jwt" approvedUser)) in
  localStorage w' !! "token" = None /\
  headersCommon w' !! "Authorization" = None /\
  currentUser w' = None /\
  isAuthenticated w' = false /\
  world (interceptor e w') = w' /\
  forall v, world (interceptor e (world (interceptor e v))) =
            world (interceptor e v).
Proof.
  apply (@interceptor_on_401 (list string) GET "/api/classifications" None
           (httpError 401 None) (signedIn "live.jwt" approvedUser)).
  reflexivity.
Defined.

(** C3, counterexample: [ClassificationResult.fetchResult] sends its
    request with [window.fetch]; answered with 401, the request leaves
    token, credential and user where they were. *)
Lemma fetch_401_bypasses_interceptor :
  let w := signedIn "live.jwt" approvedUser in
  let r := fetchResult "42" (FetchNotOk 401 None) (FetchFailed "") w in
  requests (trace r) =
    [Http ViaFetch GET "/api/classification/42" (Some "Bearer live.jwt")] /\
  world r = w /\
  localStorage (world r) !! "token" = Some "live.jwt" /\
  headersCommon (world r) !! "Authorization" = Some "Bearer live.jwt" /\
  currentUser (world r) = Some approvedUser /\
  isAuthenticated (world r) = true.
Proof. repeat split. Qed.

(** ** login *)

Lemma login_run (email password : string) (reply : AxiosResult LoginBody)
    (w : World) :
  login email password reply w =
  match reply with
  | Fulfilled data =>
      (inr tt,
       mkWorld (<["token" := token data]> (localStorage w))
               (<["Authorization" := bearer (token data)]> (headersCommon w))
               (Some (user data)) (isLoading w),
       [Http ViaAxios POST "/api/auth/login" (sentWith None w);
        LsSetItem "token" (token data);
        HdrSet "Authorization" (bearer (token data))])
  | Rejected e =>
      (if statusIs 403 e then inl pendingApprovalMessage
       else if truthy (serverMessage e) then inl (default "" (serverMessage e))
            else inl loginFailedMessage,
       if statusIs 401 e then cleared w else w,
       Http ViaAxios POST "/api/auth/login" (sentWith None w) ::
       if statusIs 401 e
       then [LsRemoveItem "token"; HdrDelete "Authorization"] else [])
  end.
Proof.
  unfold login. rewrite bind_run, axios_request_run.
  destruct reply as [d|e]; simpl; [reflexivity|].
  unfold world, result, trace; simpl.
  destruct (statusIs 403 e), (truthy (serverMessage e)), (statusIs 401 e);
    reflexivity.
Qed.

(** C5, as the code has it: a login answered with 403 is rejected with
    the pending-approval error; nothing is stored and no credential is
    attached, the state is as before.  Any other rejection yields a
    different error unless the server's own message is that very
    text. *)
Theorem login_403_pending (email password : string) (e : AxiosError)
    (w : World) :
  statusIs 403 e = true ->
  let r := login email password (Rejected e) w in
  result r = inl pendingApprovalMessage /\
  world r = w /\
  List.filter isWrite (trace r) = [] /\
  forall e' w',
    statusIs 403 e' = false ->
    serverMessage e' <> Some pendingApprovalMessage ->
    result (login email password (Rejected e') w') <>
      inl pendingApprovalMessage.
Proof.
  intros H403 r. subst r. rewrite login_run, H403.
  rewrite (statusIs_exclusive 403 401 e) by (done || lia).
  unfold result, world, trace; simpl.
  repeat split.
  intros e' w' H403' Hmsg. rewrite login_run, H403'. simpl.
  destruct (serverMessage e') as [m|] eqn:Hm; simpl.
  - destruct (String.eqb m ""); simpl.
    + discriminate.
    + intros [= ->]. by apply Hmsg.
  - discriminate.
Qed.

(** C5, witness: a 403 without a body, from a signed-out session. *)
Lemma login_403_pending_witness :
  let r := login "bo@lab.org" "pw" (Rejected (httpError 403 None)) signedOut in
  result r = inl pendingApprovalMessage /\
  world r = signedOut /\
  List.filter isWrite (trace r) = [] /\
  forall e' w',
    statusIs 403 e' = false ->
    serverMessage e' <> Some pendingApprovalMessage ->
    result (login "bo@lab.org" "pw" (Rejected e') w') <>
      inl pendingApprovalMessage.
Proof.
  apply (login_403_pending "bo@lab.org" "pw" (httpError 403 None) signedOut).
  reflexivity.
Defined.

(** C5, counterexample: a 401 whose body carries the message
    ["Your account is pending approval"] is rejected with the same error
    as a 403. *)
Lemma login_401_same_error_as_403 :
  let wrongPassword := httpError 401 (Some "Your account is pending approval") in
  let pending := httpError 403 None in
  statusIs 403 wrongPassword = false /\
  statusIs 403 pending = true /\
  result (login "bo@lab.org" "pw" (Rejected wrongPassword) signedOut) =
  result (login "bo@lab.org" "pw" (Rejected pending) signedOut).
Proof. repeat split. Qed.

(** C6, as the code has it: a fulfilled login stores the returned token,
    installs it as the default credential, so that the next request
    through axios without a header of its own carries it, and makes the
    returned user the current user; the session is authenticated exactly
    when that user's status is ['approved']. *)
Theorem login_fulfilled (email password : string) (body : LoginBody)
    (w : World) :
  let r := login email password (Fulfilled body) w in
  result r = inr tt /\
  localStorage (world r) !! "token" = Some (token body) /\
  headersCommon (world r) !! "Authorization" = Some (bearer (token body)) /\
  (forall (A : Type) m url (reply : AxiosResult A),
     requests (trace (axios_request m url None reply (world r))) =
       [Http ViaAxios m url (Some (bearer (token body)))]) /\
  currentUser (world r) = Some (user body) /\
  (isAuthenticated (world r) = true <-> status (user body) = "approved").
Proof.
  intros r. subst r. rewrite login_run.
  unfold result, world, isAuthenticated; simpl.
  split; [reflexivity|]. split; [apply lookup_insert_eq|].
  split; [apply lookup_insert_eq|]. split.
  - intros A m url reply. rewrite axios_request_run.
    unfold trace, sentWith; simpl. rewrite lookup_insert_eq.
    destruct (is401 reply); reflexivity.
  - split; [reflexivity|]. apply String.eqb_eq.
Qed.

(** C6, counterexample: a 2xx reply whose user is still ['pending']
    leaves the session not authenticated. *)
Lemma login_fulfilled_pending_not_authenticated :
  let r := login "bo@lab.org" "pw"
             (Fulfilled (mkLoginBody "live.jwt" pendingUser)) signedOut in
  result r = inr tt /\
  currentUser (world r) = Some pendingUser /\
  isAuthenticated (world r) = false.
Proof. repeat split. Qed.

(** ** logout *)

(** C7: [logout] issues no request; run twice it leaves the state of a
    single run; and in a session with no persisted token, no attached
    credential and no user it changes nothing. *)
Theorem logout_idempotent (w : World) :
  requests (trace (logout w)) = [] /\
  world (logout (world (logout w))) = world (logout w) /\
  (localStorage w !! "token" = None ->
   headersCommon w !! "Authorization" = None ->
   currentUser w = None ->
   world (logout w) = w /\ isAuthenticated (world (logout w)) = false).
Proof.
  assert (Hrun : forall v, world (logout v) = cleared v) by reflexivity.
  rewrite !Hrun.
  split; [reflexivity|]. split; [apply cleared_idemp|].
  intros Hls Hh Hu. split; [by apply cleared_id | reflexivity].
Qed.

(** C7, witness: the signed-out session. *)
Lemma logout_idempotent_witness :
  requests (trace (logout signedOut)) = [] /\
  world (logout (world (logout signedOut))) = world (logout signedOut) /\
  world (logout signedOut) = signedOut /\
  isAuthenticated (world (logout signedOut)) = false.
Proof.
  destruct (logout_idempotent signedOut) as (Hreq & Hidem & Hfix).
  split; [exact Hreq|]. split; [exact Hidem|].
  apply Hfix; reflexivity.
Defined.

(** ** The admin guard *)

(** C9: once the session is resolved, the admin guard sends a user with
    role ['user'] and status ['approved'] to [/dashboard] and not to the
    sign-in screen, and renders the guarded routes whenever [isAdmin]
    holds. *)
Theorem AdminRoute_resolved (w : World) :
  isLoading w = false ->
  (forall u, currentUser w = Some u ->
     role u = "user" -> status u = "approved" ->
     isAuthenticated w = true /\
     AdminRoute w = Navigate "/dashboard" /\
     AdminRoute w <> Navigate "/login") /\
  (isAdmin w = true -> AdminRoute w = Outlet).
Proof.
  intros Hload. unfold AdminRoute, isAuthenticated, isAdmin. rewrite Hload.
  split.
  - intros u -> Hrole Hst. rewrite Hrole, Hst. simpl.
    repeat split. discriminate.
  - intros ->. reflexivity.
Qed.

(** C9, witness: an approved user without the admin role, signed in. *)
Lemma AdminRoute_resolved_witness :
  isAuthenticated (signedIn "live.jwt" approvedUser) = true /\
  AdminRoute (signedIn "live.jwt" approvedUser) = Navigate "/dashboard" /\
  AdminRoute (signedIn "live.jwt" approvedUser) <> Navigate "/login".
Proof.
  apply (proj1 (AdminRoute_resolved (signedIn "live.jwt" approvedUser)
                  eq_refl) approvedUser); reflexivity.
Defined.

(** ** Leaf views *)

Lemma fetchResult_frame (id : string) (reply : FetchResult ClassificationData)
    (image : FetchResult string) (w : World) :
  world (fetchResult id reply image w) = w /\
  List.filter isWrite (trace (fetchResult id reply image w)) = [] /\
  exists rest, trace (fetchResult id reply image w) = LsGetItem "token" :: rest.
Proof.
  unfold fetchResult, bind, getItem, fetch_request.
  destruct (truthy (localStorage w !! "token")); simpl.
  - destruct reply as [d|st msg|reason]; simpl; eauto.
    destruct (String.eqb (imageUrl d) ""); simpl; eauto.
    destruct image; simpl; eauto.
  - eauto.
Qed.

Lemma fetchClassifications_run {A} (reply : AxiosResult A) (w : World) :
  world (fetchClassifications reply w) =
    (if truthy (localStorage w !! "token") && is401 reply
     then cleared w else w) /\
  List.filter isWrite (trace (fetchClassifications reply w)) =
    (if truthy (localStorage w !! "token") && is401 reply
     then [LsRemoveItem "token"; HdrDelete "Authorization"] else []) /\
  exists rest, trace (fetchClassifications reply w) = LsGetItem "token" :: rest.
Proof.
  unfold fetchClassifications. rewrite bind_run, getItem_run.
  cbn [result world trace fst snd].
  destruct (truthy (localStorage w !! "token")); cbn [negb andb].
  - rewrite bind_run, axios_request_run. cbn [result world trace fst snd].
    destruct reply as [d|e]; cbn [is401].
    + repeat split; eauto.
    + destruct (statusIs 401 e); repeat split; eauto.
  - repeat split; eauto.
Qed.

Lemma retryLoop_S (tok : string)
    (replies : nat -> AxiosResult (option DashboardStatistics))
    (retryCount fuel : nat) (w : World) :
  let sent := Http ViaAxios GET "/api/dashboard/statistics"
                   (Some (bearer tok)) in
  let again (e : AxiosError) :=
    if Nat.eqb (S retryCount) maxRetries then (inl e, w, [sent])
    else (result (retryLoop tok replies (S retryCount) fuel w),
          world (retryLoop tok replies (S retryCount) fuel w),
          sent :: trace (retryLoop tok replies (S retryCount) fuel w)) in
  retryLoop tok replies retryCount (S fuel) w =
  match replies retryCount with
  | Fulfilled (Some stats) => (inr stats, w, [sent])
  | Fulfilled None => again plainError
  | Rejected e =>
      if statusIs 401 e
      then (inl e, cleared w,
            [sent; LsRemoveItem "token"; HdrDelete "Authorization"])
      else again e
  end.
Proof.
  cbn [retryLoop]. rewrite bind_run, axios_request_run.
  destruct (replies retryCount) as [[stats|]|e]; cbn [is401].
  - reflexivity.
  - cbn -[retryLoop]. by destruct (Nat.eqb _ _).
  - destruct (statusIs 401 e) eqn:H401.
    + cbn -[retryLoop]. by rewrite H401.
    + cbn -[retryLoop]. rewrite H401. by destruct (Nat.eqb _ _).
Qed.

Lemma retryLoop_frame (tok : string)
    (replies : nat -> AxiosResult (option DashboardStatistics))
    (fuel retryCount : nat) (w : World) :
  framed (retryLoop tok replies retryCount fuel w) w /\
  ((forall n, is401 (replies n) = false) ->
   world (retryLoop tok replies retryCount fuel w) = w).
Proof.
  revert retryCount. induction fuel as [|fuel IH]; intros retryCount.
  - split; [left|]; by unfold world, trace.
  - rewrite retryLoop_S. cbv zeta.
    assert (Hagain : forall e,
      let r := if Nat.eqb (S retryCount) maxRetries
               then (inl e, w,
                     [Http ViaAxios GET "/api/dashboard/statistics"
                        (Some (bearer tok))])
               else (result (retryLoop tok replies (S retryCount) fuel w),
                     world (retryLoop tok replies (S retryCount) fuel w),
                     Http ViaAxios GET "/api/dashboard/statistics"
                       (Some (bearer tok)) ::
                     trace (retryLoop tok replies (S retryCount) fuel w)) in
      framed r w /\
      ((forall n, is401 (replies n) = false) -> world r = w)).
    { intros e. cbv zeta. destruct (Nat.eqb (S retryCount) maxRetries).
      - split; [left|]; by unfold world, trace.
      - destruct (IH (S retryCount)) as [IHf IHw]. split; [|exact IHw].
        exact IHf. }
    destruct (replies retryCount) as [[stats|]|e] eqn:Hreply.
    + split; [left|]; by unfold world, trace.
    + apply Hagain.
    + destruct (statusIs 401 e) eqn:H401.
      * split.
        -- right. by unfold world, trace.
        -- intros Hno. specialize (Hno retryCount). rewrite Hreply in Hno.
           simpl in Hno. congruence.
      * apply Hagain.
Qed.

Lemma fetchDashboardData_frame
    (replies : nat -> AxiosResult (option DashboardStatistics)) (w : World) :
  framed (fetchDashboardData replies w) w /\
  ((forall n, is401 (replies n) = false) ->
   world (fetchDashboardData replies w) = w) /\
  exists rest, trace (fetchDashboardData replies w) = LsGetItem "token" :: rest.
Proof.
  unfold fetchDashboardData. rewrite bind_run, getItem_run.
  cbn [result world trace fst snd]. rewrite bind_ret_run.
  set (attempt := (if negb (truthy (localStorage w !! "token"))
                   then ret (inl plainError)
                   else retryLoop (default "" (localStorage w !! "token"))
                          replies 0 maxRetries) w).
  assert (Hattempt : framed attempt w /\
            ((forall n, is401 (replies n) = false) -> world attempt = w)).
  { subst attempt. destruct (negb (truthy (localStorage w !! "token"))).
    - split; [left|]; by unfold world, trace.
    - apply retryLoop_frame. }
  destruct Hattempt as [Hf Hw].
  cbn [result world trace fst snd]. unfold framed.
  cbn [result world trace fst snd List.filter isWrite].
  split; [exact Hf|]. split; [exact Hw|]. eauto.
Qed.

Lemma register_run (name email password designation : string)
    (reply : AxiosResult unit) (w : World) :
  world (register name email password designation reply w) =
  if is401 reply then cleared w else w.
Proof.
  unfold register. rewrite bind_run, axios_request_run.
  cbn [result world trace fst snd].
  destruct reply as [[]|e]; cbn [is401]; [reflexivity|].
  by destruct (statusIs 401 e), (truthy (serverMessage e)).
Qed.

(** ** Reachable sessions *)

Lemma credentialed_cleared (w : World) : credentialed (cleared w).
Proof. intros u [=]. Qed.

Lemma framed_credentialed {A} (r : A * World * list Event) (w : World) :
  framed r w -> credentialed w -> credentialed (world r).
Proof.
  intros [[-> _]|[-> _]] Hw; [exact Hw | apply credentialed_cleared].
Qed.

Lemma initializeAuth_credentialed
    (jwtDecode : string -> option JwtPayload) (now : Z)
    (profile : AxiosResult User) (w : World) :
  currentUser w = None ->
  credentialed (world (initializeAuth jwtDecode now profile w)).
Proof.
  intros Hnone.
  destruct (localStorage w !! "token") as [t|] eqn:Hls.
  - destruct (String.eqb_spec t "") as [->|Hne].
    + rewrite initializeAuth_falsy_token by (by rewrite Hls).
      intros u. cbn. rewrite Hnone. discriminate.
    + destruct (jwtDecode t) as [p|] eqn:Hdec.
      * destruct (expired p now) eqn:Hexp.
        -- rewrite (initializeAuth_expired jwtDecode now profile w t
                      Hls Hne p Hdec Hexp).
           intros u [=].
        -- destruct profile as [u|e].
           ++ rewrite (initializeAuth_fetched jwtDecode now _ w t Hls Hne
                         p u Hdec Hexp eq_refl).
              intros u' _. exists t. cbn. split; [exact Hls|].
              apply lookup_insert_eq.
           ++ destruct (initializeAuth_fetch_failed jwtDecode now _ w t
                          Hls Hne p e Hdec Hexp eq_refl) as [-> _].
              intros u [=].
      * rewrite (initializeAuth_undecodable jwtDecode now profile w t
                   Hls Hne Hdec).
        intros u [=].
  - rewrite initializeAuth_falsy_token by (by rewrite Hls).
    intros u. cbn. rewrite Hnone. discriminate.
Qed.

Lemma run_credentialed (a : Action) (w : World) :
  credentialed w -> credentialed (run a w).
Proof.
  intros Hw. destruct a as [e p reply|n e p d reply| |i reply image|replies|reply];
    cbn [run].
  - rewrite login_run. destruct reply as [body|err].
    + intros u _. exists (token body). cbn.
      split; apply lookup_insert_eq.
    + cbn. destruct (statusIs 401 err); [apply credentialed_cleared | exact Hw].
  - rewrite register_run.
    destruct (is401 reply); [apply credentialed_cleared | exact Hw].
  - rewrite logout_run. cbn [world fst snd]. apply credentialed_cleared.
  - by rewrite (proj1 (fetchResult_frame i reply image w)).
  - apply (framed_credentialed _ w); [apply fetchDashboardData_frame | exact Hw].
  - destruct (fetchClassifications_run reply w) as (-> & _).
    destruct (_ && _); [apply credentialed_cleared | exact Hw].
Qed.

Lemma reachable_credentialed
    (jwtDecode : string -> option JwtPayload) (w : World) :
  reachable jwtDecode w -> credentialed w.
Proof.
  induction 1 as [ls now profile | w a _ IH].
  - by apply initializeAuth_credentialed.
  - by apply run_credentialed.
Qed.

(** C2, as the code has it: in every reachable session in which
    [isAdmin] holds there is a current user with role ['admin'], a
    persisted token and that token attached as the default credential;
    such a session is authenticated exactly when the user's status is
    ['approved']. *)
Theorem isAdmin_reachable
    (jwtDecode : string -> option JwtPayload) (w : World) :
  reachable jwtDecode w ->
  isAdmin w = true ->
  exists u t,
    currentUser w = Some u /\
    role u = "admin" /\
    localStorage w !! "token" = Some t /\
    headersCommon w !! "Authorization" = Some (bearer t) /\
    (isAuthenticated w = true <-> status u = "approved").
Proof.
  intros Hreach Hadmin.
  apply reachable_credentialed in Hreach.
  unfold isAdmin in Hadmin. unfold isAuthenticated.
  destruct (currentUser w) as [u|] eqn:Hu; [|discriminate].
  destruct (Hreach u Hu) as (t & Hls & Hh).
  exists u, t. split; [reflexivity|].
  split; [by apply String.eqb_eq|].
  split; [exact Hls|]. split; [exact Hh|]. apply String.eqb_eq.
Qed.

(** C2, witness: an approved admin signs in after a start without a
    token. *)
Lemma isAdmin_reachable_witness :
  let w := run (DoLogin "chief@lab.org" "pw"
                  (Fulfilled (mkLoginBody "live.jwt" approvedAdmin)))
               (world (initializeAuth sampleDecode sampleNow
                         (Fulfilled approvedAdmin) (boot ∅))) in
  exists u t,
    currentUser w = Some u /\
    role u = "admin" /\
    localStorage w !! "token" = Some t /\
    headersCommon w !! "Authorization" = Some (bearer t) /\
    (isAuthenticated w = true <-> status u = "approved").
Proof.
  apply (isAdmin_reachable sampleDecode).
  - apply reach_step. apply reach_init.
  - reflexivity.
Defined.

(** C2, counterexample: the stored token is valid and the profile fetch
    returns an admin whose account is suspended; the resulting session
    is reachable, has [isAdmin] and is not authenticated, and the admin
    guard renders the guarded routes. *)
Lemma suspended_admin_is_admin :
  let w := world (initializeAuth sampleDecode sampleNow
                    (Fulfilled suspendedAdmin)
                    (boot {[ "token" := "live.jwt" ]})) in
  reachable sampleDecode w /\
  isAdmin w = true /\
  isAuthenticated w = false /\
  status suspendedAdmin <> "approved" /\
  AdminRoute w = Outlet.
Proof.
  split; [apply reach_init|]. repeat split. discriminate.
Qed.

(** * Further properties of the provider *)

(** X1: whatever is stored, however the token decodes and however the
    server answers, [initializeAuth] ends with [isLoading] false and
    issues at most one request, and that request is the profile fetch
    carrying the stored token. *)
Theorem initializeAuth_resolves_with_at_most_one_request
    (jwtDecode : string -> option JwtPayload) (now : Z)
    (profile : AxiosResult User) (w : World) :
  let r := initializeAuth jwtDecode now profile w in
  isLoading (world r) = false /\
  (requests (trace r) = [] \/
   exists t, localStorage w !! "token" = Some t /\
     requests (trace r) =
       [Http ViaAxios GET "/api/auth/user" (Some (bearer t))]).
Proof.
  intros r. subst r.
  destruct (truthy (localStorage w !! "token")) eqn:Htruthy.
  - destruct (localStorage w !! "token") as [t|] eqn:Hls; [|discriminate].
    assert (Hne : t <> "").
    { intros ->. discriminate. }
    destruct (jwtDecode t) as [p|] eqn:Hdec.
    + destruct (expired p now) eqn:Hexp.
      * rewrite (initializeAuth_expired jwtDecode now profile w t
                   Hls Hne p Hdec Hexp).
        split; [reflexivity | by left].
      * destruct (initializeAuth_fetch_once jwtDecode now profile w t p
                    Hls Hne Hdec Hexp) as [Hreq Hload].
        split; [exact Hload|]. right. by exists t.
    + rewrite (initializeAuth_undecodable jwtDecode now profile w t
                 Hls Hne Hdec).
      split; [reflexivity | by left].
  - rewrite (initializeAuth_falsy_token jwtDecode now profile w Htruthy).
    split; [reflexivity | by left].
Qed.

(** X2: with nothing stored under ["token"], or the empty string,
    [initializeAuth] only resolves the session: drawer, default headers
    and user are as before (an empty string stays in the drawer), nothing
    is written and no request is issued. *)
Theorem initializeAuth_without_token
    (jwtDecode : string -> option JwtPayload) (now : Z)
    (profile : AxiosResult User) (w : World) :
  localStorage w !! "token" = None \/ localStorage w !! "token" = Some "" ->
  let r := initializeAuth jwtDecode now profile w in
  localStorage (world r) = localStorage w /\
  headersCommon (world r) = headersCommon w /\
  currentUser (world r) = currentUser w /\
  isLoading (world r) = false /\
  requests (trace r) = [] /\
  List.filter isWrite (trace r) = [].
Proof.
  intros Hls r. subst r.
  rewrite initializeAuth_falsy_token; [by repeat split|].
  by destruct Hls as [-> | ->].
Qed.

Lemma initializeAuth_without_token_witness :
  let r := initializeAuth sampleDecode sampleNow (Fulfilled approvedUser)
             (boot {[ "token" := "" ]}) in
  localStorage (world r) = localStorage (boot {[ "token" := "" ]}) /\
  headersCommon (world r) = headersCommon (boot {[ "token" := "" ]}) /\
  currentUser (world r) = currentUser (boot {[ "token" := "" ]}) /\
  isLoading (world r) = false /\
  requests (trace r) = [] /\
  List.filter isWrite (trace r) = [].
Proof.
  apply (initializeAuth_without_token sampleDecode sampleNow
           (Fulfilled approvedUser) (boot {[ "token" := "" ]})).
  right. reflexivity.
Defined.

(** X3: fail closed.  When the stored token passes the local check and
    the profile request is rejected, with any status or with no response
    at all, the token and the default credential are removed, no user is
    set and the session is resolved as not authenticated. *)
Theorem initializeAuth_fails_closed
    (jwtDecode : string -> option JwtPayload) (now : Z)
    (e : AxiosError) (w : World) (t : string) (p : JwtPayload) :
  localStorage w !! "token" = Some t ->
  t <> "" ->
  jwtDecode t = Some p ->
  expired p now = false ->
  let r := initializeAuth jwtDecode now (Rejected e) w in
  localStorage (world r) !! "token" = None /\
  headersCommon (world r) !! "Authorization" = None /\
  currentUser (world r) = None /\
  isAuthenticated (world r) = false /\
  isLoading (world r) = false.
Proof.
  intros Hls Hne Hdec Hexp r. subst r.
  destruct (initializeAuth_fetch_failed jwtDecode now _ w t Hls Hne p e
              Hdec Hexp eq_refl) as [-> _].
  unfold isAuthenticated; simpl.
  repeat split; apply lookup_delete_eq.
Qed.

Lemma initializeAuth_fails_closed_witness :
  let r := initializeAuth sampleDecode sampleNow
             (Rejected (mkAxiosError None (Some "ECONNABORTED")))
             (boot {[ "token" := "live.jwt" ]}) in
  localStorage (world r) !! "token" = None /\
  headersCommon (world r) !! "Authorization" = None /\
  currentUser (world r) = None /\
  isAuthenticated (world r) = false /\
  isLoading (world r) = false.
Proof.
  apply (initializeAuth_fails_closed sampleDecode sampleNow
           (mkAxiosError None (Some "ECONNABORTED"))
           (boot {[ "token" := "live.jwt" ]}) "live.jwt"
           (mkPayload (Some 2000000000))); try reflexivity.
  discriminate.
Defined.

(** X4: starting without a user, the session is authenticated after
    [initializeAuth] exactly when a non-empty token is stored, it
    decodes, the local expiry test lets it pass, and the profile request
    is fulfilled with a user whose status is ['approved']. *)
Theorem initializeAuth_authenticated_iff
    (jwtDecode : string -> option JwtPayload) (now : Z)
    (profile : AxiosResult User) (w : World) :
  currentUser w = None ->
  (isAuthenticated (world (initializeAuth jwtDecode now profile w)) = true
   <->
   exists t p u,
     localStorage w !! "token" = Some t /\ t <> "" /\
     jwtDecode t = Some p /\ expired p now = false /\
     profile = Fulfilled u /\ status u = "approved").
Proof.
  intros Hnone. split.
  - destruct (truthy (localStorage w !! "token")) eqn:Htruthy.
    + destruct (localStorage w !! "token") as [t|] eqn:Hls; [|discriminate].
      assert (Hne : t <> "").
      { intros ->. discriminate. }
      destruct (jwtDecode t) as [p|] eqn:Hdec.
      * destruct (expired p now) eqn:Hexp.
        -- rewrite (initializeAuth_expired jwtDecode now profile w t
                      Hls Hne p Hdec Hexp).
           discriminate.
        -- destruct profile as [u|e].
           ++ rewrite (initializeAuth_fetched jwtDecode now _ w t Hls Hne
                         p u Hdec Hexp eq_refl).
              unfold isAuthenticated; simpl. intros Hst.
              exists t, p, u. repeat split; try done.
              by apply String.eqb_eq.
           ++ destruct (initializeAuth_fetch_failed jwtDecode now _ w t
                          Hls Hne p e Hdec Hexp eq_refl) as [-> _].
              discriminate.
      * rewrite (initializeAuth_undecodable jwtDecode now profile w t
                   Hls Hne Hdec).
        discriminate.
    + rewrite (initializeAuth_falsy_token jwtDecode now profile w Htruthy).
      unfold isAuthenticated; simpl. rewrite Hnone. discriminate.
  - intros (t & p & u & Hls & Hne & Hdec & Hexp & -> & Hst).
    rewrite (initializeAuth_fetched jwtDecode now _ w t Hls Hne
               p u Hdec Hexp eq_refl).
    unfold isAuthenticated; simpl. by apply String.eqb_eq.
Qed.

Lemma initializeAuth_authenticated_iff_witness :
  isAuthenticated
    (world (initializeAuth sampleDecode sampleNow (Fulfilled approvedUser)
              (boot {[ "token" := "live.jwt" ]}))) = true
  <->
  exists t p u,
    localStorage (boot {[ "token" := "live.jwt" ]}) !! "token" = Some t /\
    t <> "" /\
    sampleDecode t = Some p /\ expired p sampleNow = false /\
    Fulfilled approvedUser = Fulfilled u /\ status u = "approved".
Proof.
  apply (initializeAuth_authenticated_iff sampleDecode sampleNow
           (Fulfilled approvedUser) (boot {[ "token" := "live.jwt" ]})).
  reflexivity.
Defined.

(** ** register, login and logout together *)

Lemma register_full_run (name email password designation : string)
    (reply : AxiosResult unit) (w : World) :
  register name email password designation reply w =
  (match reply with
   | Fulfilled _ => inr tt
   | Rejected e =>
       if truthy (serverMessage e) then inl (default "" (serverMessage e))
       else inl registerFailedMessage
   end,
   if is401 reply then cleared w else w,
   Http ViaAxios POST "/api/auth/register" (sentWith None w) ::
   if is401 reply then [LsRemoveItem "token"; HdrDelete "Authorization"]
   else []).
Proof.
  unfold register. rewrite bind_run, axios_request_run.
  cbn [result world trace fst snd].
  destruct reply as [[]|e]; cbn [is401]; [reflexivity|].
  by destruct (statusIs 401 e), (truthy (serverMessage e)).
Qed.

(** X5: [register] never signs anybody in.  It sends one request,
    [POST /api/auth/register]; a fulfilled registration leaves drawer,
    default headers and user exactly as they were; after a rejection the
    state is as before too, unless the status was 401, in which case the
    interceptor has emptied the session. *)
Theorem register_does_not_sign_in (name email password designation : string)
    (reply : AxiosResult unit) (w : World) :
  let r := register name email password designation reply w in
  requests (trace r) =
    [Http ViaAxios POST "/api/auth/register" (sentWith None w)] /\
  (is401 reply = false -> world r = w) /\
  (is401 reply = true -> world r = cleared w) /\
  (isAuthenticated (world r) = true -> isAuthenticated w = true) /\
  (forall d, reply = Fulfilled d -> result r = inr tt /\ world r = w).
Proof.
  intros r. subst r. rewrite register_full_run.
  cbn [result world trace fst snd].
  split; [by destruct (is401 reply)|].
  split; [by intros ->|]. split; [by intros ->|]. split.
  - destruct (is401 reply); [discriminate | done].
  - by intros d ->.
Qed.

Lemma register_does_not_sign_in_witness :
  let r := register "Bo" "bo@lab.org" "pw" "Nurse" (Fulfilled tt) signedOut in
  result r = inr tt /\ world r = signedOut.
Proof.
  destruct (register_does_not_sign_in "Bo" "bo@lab.org" "pw" "Nurse"
              (Fulfilled tt) signedOut) as (_ & _ & _ & _ & Hok).
  apply (Hok tt). reflexivity.
Defined.

Lemma truthy_default_nonempty (o : option string) :
  truthy o = true -> default "" o <> "".
Proof.
  destruct o as [m|]; [|discriminate]. simpl.
  destruct (String.eqb_spec m ""); [discriminate | done].
Qed.

(** X6: the error [login] or [register] rejects with never has an empty
    message: an empty or missing server message is replaced by the
    fixed text of the operation. *)
Theorem rejection_message_never_empty (w : World) :
  (forall email password reply m,
     result (login email password reply w) = inl m -> m <> "") /\
  (forall name email password designation reply m,
     result (register name email password designation reply w) = inl m ->
     m <> "").
Proof.
  split.
  - intros email password reply m. rewrite login_run.
    destruct reply as [body|e]; cbn [result fst]; [discriminate|].
    destruct (statusIs 403 e).
    + intros [= <-]. discriminate.
    + destruct (truthy (serverMessage e)) eqn:Hmsg.
      * intros [= <-]. by apply truthy_default_nonempty.
      * intros [= <-]. discriminate.
  - intros name email password designation reply m.
    rewrite register_full_run.
    destruct reply as [[]|e]; cbn [result fst]; [discriminate|].
    destruct (truthy (serverMessage e)) eqn:Hmsg.
    + intros [= <-]. by apply truthy_default_nonempty.
    + intros [= <-]. discriminate.
Qed.

Lemma rejection_message_never_empty_witness :
  result (login "bo@lab.org" "pw"
            (Rejected (httpError 400 (Some ""))) signedOut) =
    inl loginFailedMessage /\
  loginFailedMessage <> "".
Proof.
  split; [reflexivity|].
  apply (proj1 (rejection_message_never_empty signedOut) "bo@lab.org" "pw"
           (Rejected (httpError 400 (Some "")))).
  reflexivity.
Defined.

(** X7: a sign-in followed by [logout] ends in the state that [logout]
    alone would have produced: [logout] removes everything a fulfilled
    [login] adds. *)
Theorem logout_undoes_login (email password : string) (body : LoginBody)
    (w : World) :
  world (logout (world (login email password (Fulfilled body) w))) =
  world (logout w).
Proof.
  rewrite login_run, !logout_run. cbn [world fst snd]. unfold cleared.
  cbn [localStorage headersCommon isLoading].
  by rewrite !delete_insert_eq.
Qed.

(** X8: of two fulfilled sign-ins in a row only the second shows: token,
    credential and user are those of the later reply. *)
Theorem last_login_wins (e1 p1 e2 p2 : string) (b1 b2 : LoginBody)
    (w : World) :
  world (login e2 p2 (Fulfilled b2) (world (login e1 p1 (Fulfilled b1) w))) =
  world (login e2 p2 (Fulfilled b2) w).
Proof.
  rewrite !login_run. cbn [world fst snd localStorage headersCommon isLoading].
  by rewrite !insert_insert_eq.
Qed.

(** ** No stale credential *)

Lemma noStale_cleared (w : World) : noStaleCredential (cleared w).
Proof. intros h Hh. rewrite cleared_header in Hh. discriminate. Qed.

Lemma framed_noStale {A} (r : A * World * list Event) (w : World) :
  framed r w -> noStaleCredential w -> noStaleCredential (world r).
Proof.
  intros [[-> _]|[-> _]] Hw; [exact Hw | apply noStale_cleared].
Qed.

Lemma initializeAuth_noStale
    (jwtDecode : string -> option JwtPayload) (now : Z)
    (profile : AxiosResult User) (w : World) :
  headersCommon w !! "Authorization" = None ->
  noStaleCredential (world (initializeAuth jwtDecode now profile w)).
Proof.
  intros Hnone.
  destruct (truthy (localStorage w !! "token")) eqn:Htruthy.
  - destruct (localStorage w !! "token") as [t|] eqn:Hls; [|discriminate].
    assert (Hne : t <> "").
    { intros ->. discriminate. }
    destruct (jwtDecode t) as [p|] eqn:Hdec.
    + destruct (expired p now) eqn:Hexp.
      * rewrite (initializeAuth_expired jwtDecode now profile w t
                   Hls Hne p Hdec Hexp).
        intros h. cbn. rewrite Hnone. discriminate.
      * destruct profile as [u|e].
        -- rewrite (initializeAuth_fetched jwtDecode now _ w t Hls Hne
                      p u Hdec Hexp eq_refl).
           intros h. cbn. rewrite lookup_insert_eq. intros [= <-].
           by exists t.
        -- destruct (initializeAuth_fetch_failed jwtDecode now _ w t
                       Hls Hne p e Hdec Hexp eq_refl) as [-> _].
           intros h. cbn. rewrite lookup_delete_eq. discriminate.
    + rewrite (initializeAuth_undecodable jwtDecode now profile w t
                 Hls Hne Hdec).
      intros h. cbn. rewrite lookup_delete_eq. discriminate.
  - rewrite (initializeAuth_falsy_token jwtDecode now profile w Htruthy).
    intros h. cbn. rewrite Hnone. discriminate.
Qed.

Lemma run_noStale (a : Action) (w : World) :
  noStaleCredential w -> noStaleCredential (run a w).
Proof.
  intros Hw.
  destruct a as [e p reply|n e p d reply| |i reply image|replies|reply];
    cbn [run].
  - rewrite login_run. destruct reply as [body|err].
    + intros h. cbn. rewrite !lookup_insert_eq. intros [= <-].
      by exists (token body).
    + cbn. destruct (statusIs 401 err); [apply noStale_cleared | exact Hw].
  - rewrite register_run.
    destruct (is401 reply); [apply noStale_cleared | exact Hw].
  - rewrite logout_run. cbn [world fst snd]. apply noStale_cleared.
  - by rewrite (proj1 (fetchResult_frame i reply image w)).
  - apply (framed_noStale _ w); [apply fetchDashboardData_frame | exact Hw].
  - destruct (fetchClassifications_run reply w) as (-> & _).
    destruct (_ && _); [apply noStale_cleared | exact Hw].
Qed.

(** X9: in every reachable session the default credential, when one is
    attached, is [Bearer] followed by the token that is persisted at
    that moment; a credential never outlives its token. *)
Theorem reachable_noStaleCredential
    (jwtDecode : string -> option JwtPayload) (w : World) :
  reachable jwtDecode w ->
  forall h, headersCommon w !! "Authorization" = Some h ->
    exists t, localStorage w !! "token" = Some t /\ h = bearer t.
Proof.
  induction 1 as [ls now profile | w a _ IH].
  - by apply initializeAuth_noStale.
  - by apply run_noStale.
Qed.

Lemma reachable_noStaleCredential_witness :
  let w := run (DoLogin "ana@lab.org" "pw"
                  (Fulfilled (mkLoginBody "live.jwt" approvedUser)))
               (world (initializeAuth sampleDecode sampleNow
                         (Fulfilled approvedUser)
                         (boot {[ "token" := "stale.jwt" ]}))) in
  exists t, localStorage w !! "token" = Some t /\
            "Bearer live.jwt" = bearer t.
Proof.
  apply (reachable_noStaleCredential sampleDecode).
  - apply reach_step. apply reach_init.
  - reflexivity.
Defined.

(** X10: the admin views send their requests without a header of their
    own.  In every reachable session with a current user those requests
    nevertheless carry the persisted token, through the default
    credential. *)
Theorem admin_views_send_persisted_token
    (jwtDecode : string -> option JwtPayload) (w : World) (u : User) :
  reachable jwtDecode w ->
  currentUser w = Some u ->
  exists t,
    localStorage w !! "token" = Some t /\
    (forall (reply : AxiosResult (list ManageUsers.User)),
       head (requests (trace (fetchUsers reply w))) =
         Some (Http ViaAxios GET "/api/admin/users" (Some (bearer t)))) /\
    (forall (reply : AxiosResult DashboardStatistics),
       head (requests (trace (fetchAdminStats reply w))) =
         Some (Http ViaAxios GET "/api/admin/statistics" (Some (bearer t)))) /\
    (forall reply st target,
       ManageUsers.userToModify st = Some target ->
       head (requests (trace (ManageUsers.handleUserAction reply st w))) =
         Some (Http ViaAxios
                 (fst (ManageUsers.endpoint (ManageUsers.actionType st) target))
                 (snd (ManageUsers.endpoint (ManageUsers.actionType st) target))
                 (Some (bearer t)))).
Proof.
  intros Hreach Hu.
  destruct (reachable_credentialed jwtDecode w Hreach u Hu) as (t & Hls & Hh).
  exists t. split; [exact Hls|]. split; [|split].
  - intros reply. unfold fetchUsers.
    rewrite bind_run, axios_request_run. cbn [result world trace fst snd].
    unfold sentWith. by rewrite Hh.
  - intros reply. unfold fetchAdminStats.
    rewrite bind_run, axios_request_run. cbn [result world trace fst snd].
    unfold sentWith. by rewrite Hh.
  - intros reply st target Htarget. unfold ManageUsers.handleUserAction.
    rewrite Htarget, bind_run, axios_request_run.
    cbn [result world trace fst snd]. unfold sentWith. by rewrite Hh.
Qed.

Lemma admin_views_send_persisted_token_witness :
  let w := run (DoLogin "chief@lab.org" "pw"
                  (Fulfilled (mkLoginBody "live.jwt" approvedAdmin)))
               (world (initializeAuth sampleDecode sampleNow
                         (Fulfilled approvedAdmin) (boot ∅))) in
  exists t,
    localStorage w !! "token" = Some t /\
    (forall (reply : AxiosResult (list ManageUsers.User)),
       head (requests (trace (fetchUsers reply w))) =
         Some (Http ViaAxios GET "/api/admin/users" (Some (bearer t)))) /\
    (forall (reply : AxiosResult DashboardStatistics),
       head (requests (trace (fetchAdminStats reply w))) =
         Some (Http ViaAxios GET "/api/admin/statistics" (Some (bearer t)))) /\
    (forall reply st target,
       ManageUsers.userToModify st = Some target ->
       head (requests (trace (ManageUsers.handleUserAction reply st w))) =
         Some (Http ViaAxios
                 (fst (ManageUsers.endpoint (ManageUsers.actionType st) target))
                 (snd (ManageUsers.endpoint (ManageUsers.actionType st) target))
                 (Some (bearer t)))).
Proof.
  apply (admin_views_send_persisted_token sampleDecode _ approvedAdmin).
  - apply reach_step. apply reach_init.
  - reflexivity.
Defined.

(** ** Guards after a change of session *)

(** X11: in a resolved session, once [logout] has run (or the
    interceptor has emptied the session) the sign-in layout renders its
    forms and the admin guard redirects to [/dashboard] instead of
    rendering its routes; after a fulfilled sign-in of an approved user
    the sign-in layout redirects to [/dashboard]; and while the session
    is loading both guards render the loading screen, whoever the user
    is. *)
Theorem guards_follow_session (w : World) :
  (isLoading w = false ->
     AuthLayout (world (logout w)) = Outlet /\
     AdminRoute (world (logout w)) = Navigate "/dashboard" /\
     forall email password body,
       status (user body) = "approved" ->
       AuthLayout (world (login email password (Fulfilled body) w)) =
         Navigate "/dashboard") /\
  (isLoading w = true ->
     AuthLayout w = LoadingScreen /\ AdminRoute w = LoadingScreen /\
     AuthLayout (world (logout w)) = LoadingScreen /\
     forall email password reply,
       AdminRoute (world (login email password reply w)) = LoadingScreen).
Proof.
  split.
  - intros Hload. split; [|split].
    + rewrite logout_run. unfold AuthLayout, isAuthenticated. cbn.
      by rewrite Hload.
    + rewrite logout_run. unfold AdminRoute, isAdmin. cbn.
      by rewrite Hload.
    + intros email password body Hst. rewrite login_run.
      unfold AuthLayout, isAuthenticated. cbn. by rewrite Hload, Hst.
  - intros Hload. split; [|split; [|split]].
    + unfold AuthLayout. by rewrite Hload.
    + unfold AdminRoute. by rewrite Hload.
    + rewrite logout_run. unfold AuthLayout. cbn. by rewrite Hload.
    + intros email password reply. rewrite login_run. unfold AdminRoute.
      destruct reply as [body|e]; cbn; [by rewrite Hload|].
      destruct (statusIs 401 e); cbn; by rewrite Hload.
Qed.

Lemma guards_follow_session_witness :
  AuthLayout (world (logout (signedIn "live.jwt" approvedAdmin))) = Outlet /\
  AdminRoute (world (logout (signedIn "live.jwt" approvedAdmin))) =
    Navigate "/dashboard".
Proof.
  destruct (proj1 (guards_follow_session (signedIn "live.jwt" approvedAdmin))
              eq_refl) as (Hauth & Hadmin & _).
  split; [exact Hauth | exact Hadmin].
Defined.

(** ** The leaf views and the token *)

Lemma retryLoop_requests (tok : string)
    (replies : nat -> AxiosResult (option DashboardStatistics))
    (fuel retryCount : nat) (w : World) :
  exists k, (k <= fuel)%nat /\
    requests (trace (retryLoop tok replies retryCount fuel w)) =
      replicate k (statisticsRequest tok).
Proof.
  revert retryCount. induction fuel as [|fuel IH]; intros retryCount.
  - exists 0%nat. split; [lia | reflexivity].
  - rewrite retryLoop_S. cbv zeta.
    assert (Hagain : forall e : AxiosError,
      exists k, (k <= S fuel)%nat /\
        requests (trace
          (if Nat.eqb (S retryCount) maxRetries
           then (inl e, w,
                 [Http ViaAxios GET "/api/dashboard/statistics"
                    (Some (bearer tok))])
           else (result (retryLoop tok replies (S retryCount) fuel w),
                 world (retryLoop tok replies (S retryCount) fuel w),
                 Http ViaAxios GET "/api/dashboard/statistics"
                   (Some (bearer tok)) ::
                 trace (retryLoop tok replies (S retryCount) fuel w)))) =
        replicate k (statisticsRequest tok)).
    { intros e. destruct (Nat.eqb (S retryCount) maxRetries).
      - exists 1%nat. split; [lia | reflexivity].
      - destruct (IH (S retryCount)) as (k & Hk & Hreq).
        exists (S k). split; [lia|].
        cbn [trace snd requests List.filter isHttp]. fold (requests
          (trace (retryLoop tok replies (S retryCount) fuel w))).
        by rewrite Hreq. }
    destruct (replies retryCount) as [[stats|]|e].
    + exists 1%nat. split; [lia | reflexivity].
    + apply Hagain.
    + destruct (statusIs 401 e); [|apply Hagain].
      exists 1%nat. split; [lia | reflexivity].
Qed.

(** X12: without a token in the drawer, or with the empty string there,
    the leaf views that read it send no request at all and leave drawer,
    default headers and user as they were; the two views of [Classify]
    that change the list leave the list unchanged as well. *)
Theorem leaf_views_without_token_send_nothing (w : World) :
  truthy (localStorage w !! "token") = false ->
  (forall id reply image,
     requests (trace (fetchResult id reply image w)) = [] /\
     world (fetchResult id reply image w) = w) /\
  (forall replies,
     requests (trace (fetchDashboardData replies w)) = [] /\
     world (fetchDashboardData replies w) = w) /\
  (forall reply : AxiosResult (list string),
     requests (trace (fetchClassifications reply w)) = [] /\
     world (fetchClassifications reply w) = w) /\
  (forall cid s reply l,
     requests (trace (Classify.updateClassificationStatus cid s reply l w))
       = [] /\
     world (Classify.updateClassificationStatus cid s reply l w) = w /\
     fst (result (Classify.updateClassificationStatus cid s reply l w)) = l) /\
  (forall cid reply st,
     requests (trace (Classify.generateReport cid reply st w)) = [] /\
     world (Classify.generateReport cid reply st w) = w /\
     fst (result (Classify.generateReport cid reply st w)) = st).
Proof.
  intros Hfalsy. repeat split.
  - unfold fetchResult. rewrite bind_run, getItem_run.
    cbn [result world trace fst snd]. by rewrite Hfalsy.
  - unfold fetchResult. rewrite bind_run, getItem_run.
    cbn [result world trace fst snd]. by rewrite Hfalsy.
  - unfold fetchDashboardData. rewrite bind_run, getItem_run.
    cbn [result world trace fst snd]. rewrite bind_ret_run.
    by rewrite Hfalsy.
  - unfold fetchDashboardData. rewrite bind_run, getItem_run.
    cbn [result world trace fst snd]. rewrite bind_ret_run.
    by rewrite Hfalsy.
  - unfold fetchClassifications. rewrite bind_run, getItem_run.
    cbn [result world trace fst snd]. by rewrite Hfalsy.
  - unfold fetchClassifications. rewrite bind_run, getItem_run.
    cbn [result world trace fst snd]. by rewrite Hfalsy.
  - unfold Classify.updateClassificationStatus.
    rewrite bind_run, getItem_run.
    cbn [result world trace fst snd]. by rewrite Hfalsy.
  - unfold Classify.updateClassificationStatus.
    rewrite bind_run, getItem_run.
    cbn [result world trace fst snd]. by rewrite Hfalsy.
  - unfold Classify.updateClassificationStatus.
    rewrite bind_run, getItem_run.
    cbn [result world trace fst snd]. by rewrite Hfalsy.
  - unfold Classify.generateReport. rewrite bind_run, getItem_run.
    cbn [result world trace fst snd]. by rewrite Hfalsy.
  - unfold Classify.generateReport. rewrite bind_run, getItem_run.
    cbn [result world trace fst snd]. by rewrite Hfalsy.
  - unfold Classify.generateReport. rewrite bind_run, getItem_run.
    cbn [result world trace fst snd]. by rewrite Hfalsy.
Qed.

Lemma leaf_views_without_token_send_nothing_witness :
  requests (trace (fetchDashboardData
                     (fun _ => Rejected (httpError 500 None)) signedOut)) = [] /\
  world (fetchDashboardData
           (fun _ => Rejected (httpError 500 None)) signedOut) = signedOut.
Proof.
  destruct (leaf_views_without_token_send_nothing signedOut eq_refl)
    as (_ & Hdash & _).
  apply Hdash.
Defined.

Lemma requests_LsGetItem (key : string) (tr : list Event) :
  requests (LsGetItem key :: tr) = requests tr.
Proof. reflexivity. Qed.

Lemma requests_app (tr1 tr2 : list Event) :
  requests (tr1 ++ tr2) = requests tr1 ++ requests tr2.
Proof. apply List.filter_app. Qed.

Lemma requests_replicate (k : nat) (tok : string) :
  requests (replicate k (statisticsRequest tok)) =
  replicate k (statisticsRequest tok).
Proof. induction k; simpl; [done | by f_equal]. Qed.

Lemma Forall_replicate_same {A} (P : A -> Prop) (k : nat) (x : A) :
  P x -> Forall P (replicate k x).
Proof. intros Hx. induction k; simpl; constructor; auto. Qed.

(** X13: every request these views send carries [Bearer] followed by
    the token found in the drawer, whatever the default credential is at
    that moment. *)
Theorem leaf_views_send_stored_token (w : World) (t : string) :
  localStorage w !! "token" = Some t ->
  let carries := Forall (fun e => authorizationOf e = Some (bearer t)) in
  (forall id reply image,
     carries (requests (trace (fetchResult id reply image w)))) /\
  (forall replies,
     carries (requests (trace (fetchDashboardData replies w)))) /\
  (forall reply : AxiosResult (list string),
     carries (requests (trace (fetchClassifications reply w)))) /\
  (forall cid s reply l,
     carries (requests
       (trace (Classify.updateClassificationStatus cid s reply l w)))) /\
  (forall cid reply st,
     carries (requests (trace (Classify.generateReport cid reply st w)))).
Proof.
  intros Hls carries. subst carries. repeat split.
  - intros id0 reply image. unfold fetchResult.
    rewrite bind_run, getItem_run. cbn [result world trace fst snd].
    rewrite Hls. destruct (truthy (Some t)); cbn [negb]; [|constructor].
    rewrite bind_run, fetch_request_run. cbn [result world trace fst snd].
    destruct reply as [d|st msg|reason]; cbn [default].
    + destruct (truthy (Some (imageUrl d))).
      * rewrite bind_run, fetch_request_run.
        cbn [result world trace fst snd].
        destruct image; repeat constructor.
      * repeat constructor.
    + repeat constructor.
    + repeat constructor.
  - intros replies. unfold fetchDashboardData.
    rewrite bind_run, getItem_run. cbn [result world trace fst snd].
    rewrite bind_ret_run, Hls. cbn [trace snd].
    change (default "" (Some t)) with t.
    rewrite requests_app.
    change (requests [LsGetItem "token"]) with (@nil Event).
    rewrite app_nil_l.
    destruct (truthy (Some t)); cbn [negb]; [|constructor].
    destruct (retryLoop_requests t replies maxRetries 0 w) as (k & _ & Hreq).
    rewrite Hreq. by apply Forall_replicate_same.
  - intros reply. unfold fetchClassifications.
    rewrite bind_run, getItem_run. cbn [result world trace fst snd].
    rewrite Hls. destruct (truthy (Some t)); cbn [negb]; [|constructor].
    rewrite bind_run, axios_request_run. cbn [result world trace fst snd].
    destruct reply as [d|e]; cbn [is401]; [repeat constructor|].
    destruct (statusIs 401 e); repeat constructor.
  - intros cid s reply l. unfold Classify.updateClassificationStatus.
    rewrite bind_run, getItem_run. cbn [result world trace fst snd].
    rewrite Hls. destruct (truthy (Some t)); cbn [negb]; [|constructor].
    rewrite bind_run, axios_request_run. cbn [result world trace fst snd].
    destruct reply as [d|e]; cbn [is401]; [repeat constructor|].
    destruct (statusIs 401 e); repeat constructor.
  - intros cid reply st. unfold Classify.generateReport.
    rewrite bind_run, getItem_run. cbn [result world trace fst snd].
    rewrite Hls. destruct (truthy (Some t)); cbn [negb]; [|constructor].
    rewrite bind_run, axios_request_run. cbn [result world trace fst snd].
    destruct reply as [d|e]; cbn [is401]; [repeat constructor|].
    destruct (statusIs 401 e); repeat constructor.
Qed.

Lemma leaf_views_send_stored_token_witness :
  Forall (fun e => authorizationOf e = Some (bearer "live.jwt"))
    (requests (trace (fetchDashboardData
                        (fun _ => Rejected (httpError 500 None))
                        (mkWorld {[ "token" := "live.jwt" ]} ∅ None false)))).
Proof.
  assert (Hls : localStorage (mkWorld {[ "token" := "live.jwt" ]} ∅ None false)
                  !! "token" = Some "live.jwt") by reflexivity.
  destruct (leaf_views_send_stored_token _ "live.jwt" Hls) as (_ & Hdash & _).
  apply Hdash.
Defined.

(** ** The dashboard's retry loop *)

Lemma fetchDashboardData_run
    (replies : nat -> AxiosResult (option DashboardStatistics)) (w : World)
    (t : string) :
  localStorage w !! "token" = Some t -> t <> "" ->
  fetchDashboardData replies w =
  (dashboardOutcome (result (retryLoop t replies 0 maxRetries w)),
   world (retryLoop t replies 0 maxRetries w),
   LsGetItem "token" :: trace (retryLoop t replies 0 maxRetries w)).
Proof.
  intros Hls Hne. unfold fetchDashboardData.
  rewrite bind_run, getItem_run. cbn [result world trace fst snd].
  rewrite bind_ret_run, Hls, (truthy_Some _ Hne). reflexivity.
Qed.

(** X14: [fetchDashboardData] never sends more than three requests, and
    each of them is the same [GET /api/dashboard/statistics]. *)
Theorem fetchDashboardData_at_most_three_requests
    (replies : nat -> AxiosResult (option DashboardStatistics)) (w : World) :
  (length (requests (trace (fetchDashboardData replies w))) <= 3)%nat /\
  Forall (fun e => exists auth,
            e = Http ViaAxios GET "/api/dashboard/statistics" auth)
         (requests (trace (fetchDashboardData replies w))).
Proof.
  unfold fetchDashboardData. rewrite bind_run, getItem_run.
  cbn [result world trace fst snd]. rewrite bind_ret_run. cbn [trace snd].
  rewrite requests_app.
  change (requests [LsGetItem "token"]) with (@nil Event).
  rewrite app_nil_l.
  destruct (negb (truthy (localStorage w !! "token"))).
  - split; [simpl; lia | constructor].
  - destruct (retryLoop_requests (default "" (localStorage w !! "token"))
                replies maxRetries 0 w) as (k & Hk & Hreq).
    rewrite Hreq. split.
    + rewrite length_replicate. exact Hk.
    + apply Forall_replicate_same. by eexists.
Qed.

Lemma retryLoop_after_failures (tok : string)
    (replies : nat -> AxiosResult (option DashboardStatistics)) (w : World)
    (k : nat) :
  forall n fuel : nat,
    (n + fuel)%nat = maxRetries -> (k < fuel)%nat ->
    (forall i, (n <= i < n + k)%nat -> retryable (replies i) = true) ->
    retryLoop tok replies n fuel w =
    (result (retryLoop tok replies (n + k) (fuel - k) w),
     world (retryLoop tok replies (n + k) (fuel - k) w),
     replicate k (statisticsRequest tok) ++
     trace (retryLoop tok replies (n + k) (fuel - k) w)).
Proof.
  induction k as [|k IH]; intros n fuel Hsum Hk Hretry.
  - rewrite Nat.add_0_r, Nat.sub_0_r. simpl.
    by destruct (retryLoop tok replies n fuel w) as [[? ?] ?].
  - destruct fuel as [|fuel]; [lia|].
    assert (Hn : retryable (replies n) = true) by (apply Hretry; lia).
    assert (Hne : Nat.eqb (S n) maxRetries = false).
    { apply Nat.eqb_neq. lia. }
    rewrite retryLoop_S. cbv zeta. rewrite Hne.
    rewrite (IH (S n) fuel) by (try lia; intros i Hi; apply Hretry; lia).
    replace (S n + k)%nat with (n + S k)%nat by lia.
    replace (S fuel - S k)%nat with (fuel - k)%nat by lia.
    destruct (replies n) as [[stats|]|e]; simpl in Hn.
    + discriminate.
    + reflexivity.
    + apply negb_true_iff in Hn. rewrite Hn. reflexivity.
Qed.

(** X15: a 401 ends the retry loop at once.  When the first [k] replies
    are failures other than 401 and the next one is a 401, exactly
    [k + 1] requests have been sent, the view redirects to the sign-in
    screen, and the interceptor has emptied the session. *)
Theorem fetchDashboardData_stops_at_401
    (replies : nat -> AxiosResult (option DashboardStatistics)) (w : World)
    (t : string) (k : nat) :
  localStorage w !! "token" = Some t -> t <> "" ->
  (k < 3)%nat ->
  (forall i, (i < k)%nat -> retryable (replies i) = true) ->
  is401 (replies k) = true ->
  let r := fetchDashboardData replies w in
  length (requests (trace r)) = S k /\
  result r = RedirectLogin /\
  world r = cleared w.
Proof.
  intros Hls Hne Hk Hretry H401 r. subst r.
  rewrite (fetchDashboardData_run replies w t Hls Hne).
  rewrite (retryLoop_after_failures t replies w k 0 maxRetries)
    by (try reflexivity; try (unfold maxRetries; lia);
        intros i Hi; apply Hretry; lia).
  cbn [result world trace fst snd Nat.add].
  destruct (maxRetries - k)%nat as [|fuel] eqn:Hfuel;
    [unfold maxRetries in Hfuel; lia|].
  rewrite retryLoop_S. cbv zeta.
  destruct (replies k) as [d|e]; [discriminate|]. simpl in H401.
  rewrite H401. cbn [result world trace fst snd dashboardOutcome].
  rewrite H401. split; [|done].
  rewrite requests_LsGetItem, requests_app, requests_replicate.
  rewrite length_app, length_replicate. simpl. lia.
Qed.

Lemma fetchDashboardData_stops_at_401_witness :
  let replies := fun i : nat =>
    if Nat.eqb i 1 then Rejected (httpError 401 None)
    else @Rejected (option DashboardStatistics) (httpError 503 None) in
  let r := fetchDashboardData replies (signedIn "live.jwt" approvedUser) in
  length (requests (trace r)) = 2%nat /\
  result r = RedirectLogin /\
  world r = cleared (signedIn "live.jwt" approvedUser).
Proof.
  apply (fetchDashboardData_stops_at_401 _
           (signedIn "live.jwt" approvedUser) "live.jwt" 1).
  - reflexivity.
  - discriminate.
  - lia.
  - intros i Hi. assert (i = 0%nat) as -> by lia. reflexivity.
  - reflexivity.
Defined.

(** X16: when the first [k] replies are failures other than 401 and the
    next one is a well-formed 2xx, the view shows those statistics after
    exactly [k + 1] requests and the session is untouched. *)
Theorem fetchDashboardData_succeeds_after_retries
    (replies : nat -> AxiosResult (option DashboardStatistics)) (w : World)
    (t : string) (k : nat) (stats : DashboardStatistics) :
  localStorage w !! "token" = Some t -> t <> "" ->
  (k < 3)%nat ->
  (forall i, (i < k)%nat -> retryable (replies i) = true) ->
  replies k = Fulfilled (Some stats) ->
  let r := fetchDashboardData replies w in
  length (requests (trace r)) = S k /\
  result r = ShowStats stats /\
  world r = w.
Proof.
  intros Hls Hne Hk Hretry Hok r. subst r.
  rewrite (fetchDashboardData_run replies w t Hls Hne).
  rewrite (retryLoop_after_failures t replies w k 0 maxRetries)
    by (try reflexivity; try (unfold maxRetries; lia);
        intros i Hi; apply Hretry; lia).
  cbn [result world trace fst snd Nat.add].
  destruct (maxRetries - k)%nat as [|fuel] eqn:Hfuel;
    [unfold maxRetries in Hfuel; lia|].
  rewrite retryLoop_S. cbv zeta. rewrite Hok.
  cbn [result world trace fst snd dashboardOutcome].
  split; [|done].
  rewrite requests_LsGetItem, requests_app, requests_replicate.
  rewrite length_app, length_replicate. simpl. lia.
Qed.

Lemma fetchDashboardData_succeeds_after_retries_witness :
  let stats := mkDashboardStatistics 12 93 in
  let replies := fun i : nat =>
    if Nat.eqb i 2 then Fulfilled (Some stats)
    else if Nat.eqb i 1 then Fulfilled None
    else Rejected (httpError 503 None) in
  let r := fetchDashboardData replies (signedIn "live.jwt" approvedUser) in
  length (requests (trace r)) = 3%nat /\
  result r = ShowStats stats /\
  world r = signedIn "live.jwt" approvedUser.
Proof.
  apply (fetchDashboardData_succeeds_after_retries _
           (signedIn "live.jwt" approvedUser) "live.jwt" 2).
  - reflexivity.
  - discriminate.
  - lia.
  - intros i Hi. destruct i as [|[|i]]; [reflexivity | reflexivity | lia].
  - reflexivity.
Defined.

(** X17: when three replies in a row are failures other than 401, the
    view gives up after the third request: it shows an error, never the
    redirect to the sign-in screen, and the session is untouched. *)
Theorem fetchDashboardData_gives_up_after_three
    (replies : nat -> AxiosResult (option DashboardStatistics)) (w : World)
    (t : string) :
  localStorage w !! "token" = Some t -> t <> "" ->
  (forall i, (i < 3)%nat -> retryable (replies i) = true) ->
  let r := fetchDashboardData replies w in
  length (requests (trace r)) = 3%nat /\
  (exists msg, result r = ShowError msg) /\
  world r = w.
Proof.
  intros Hls Hne Hretry r. subst r.
  rewrite (fetchDashboardData_run replies w t Hls Hne).
  rewrite (retryLoop_after_failures t replies w 2 0 maxRetries)
    by (try reflexivity; try (unfold maxRetries; lia);
        intros i Hi; apply Hretry; lia).
  cbn [result world trace fst snd Nat.add].
  change (maxRetries - 2)%nat with 1%nat.
  rewrite retryLoop_S. cbv zeta.
  change (Nat.eqb 3 maxRetries) with true. cbv iota.
  assert (Hlast : retryable (replies 2%nat) = true) by (apply Hretry; lia).
  assert (Hshow : forall e, statusIs 401 e = false ->
            exists msg, dashboardOutcome (inl e) = ShowError msg).
  { intros e He. unfold dashboardOutcome. rewrite He.
    destruct (statusIs 403 e); [by eexists|].
    destruct (bool_decide _); [by eexists|].
    destruct (truthy _); by eexists. }
  destruct (replies 2%nat) as [[stats|]|e]; simpl in Hlast.
  - discriminate.
  - cbn [result world trace fst snd]. split; [reflexivity|].
    split; [by apply Hshow | reflexivity].
  - apply negb_true_iff in Hlast. rewrite Hlast.
    cbn [result world trace fst snd]. split; [reflexivity|].
    split; [by apply Hshow | reflexivity].
Qed.

Lemma fetchDashboardData_gives_up_after_three_witness :
  let replies := fun _ : nat =>
    @Rejected (option DashboardStatistics) (httpError 500 None) in
  let r := fetchDashboardData replies (signedIn "live.jwt" approvedUser) in
  length (requests (trace r)) = 3%nat /\
  (exists msg, result r = ShowError msg) /\
  world r = signedIn "live.jwt" approvedUser.
Proof.
  apply (fetchDashboardData_gives_up_after_three _
           (signedIn "live.jwt" approvedUser) "live.jwt").
  - reflexivity.
  - discriminate.
  - intros i _. reflexivity.
Defined.

(** ** The forms *)

(** X18: the sign-in form shows ["Failed to login"] for every rejected
    sign-in, whatever the status and whatever message the server sent:
    [login] rejects with a fresh [Error], which has no [response], so
    neither the server's text nor the pending-approval toast is ever
    shown.  A fulfilled sign-in navigates to [/dashboard]. *)
Theorem Login_onSubmit_toasts (email password : string)
    (reply : AxiosResult LoginBody) (w : World) :
  result (Login_onSubmit email password reply w) =
  match reply with
  | Fulfilled _ => (Some "/dashboard", ToastSuccess "Successfully logged in")
  | Rejected _ => (None, ToastError "Failed to login")
  end /\
  world (Login_onSubmit email password reply w) =
    world (login email password reply w).
Proof.
  unfold Login_onSubmit. rewrite bind_run, login_run.
  destruct reply as [body|e]; cbn [result world trace fst snd].
  - split; reflexivity.
  - destruct (statusIs 403 e); [by split|].
    destruct (truthy (serverMessage e)); by split.
Qed.

(** X19: the registration form shows ["Failed to register"] for every
    rejected registration, whatever message the server sent, and
    navigates to [/login] after a fulfilled one; the session is as it
    was unless the reply was a 401. *)
Theorem Register_onSubmit_toasts (name email password designation : string)
    (reply : AxiosResult unit) (w : World) :
  result (Register_onSubmit name email password designation reply w) =
  match reply with
  | Fulfilled _ => (Some "/login", ToastSuccess "Account created successfully.")
  | Rejected _ => (None, ToastError "Failed to register")
  end /\
  world (Register_onSubmit name email password designation reply w) =
    (if is401 reply then cleared w else w).
Proof.
  unfold Register_onSubmit. rewrite bind_run, register_full_run.
  destruct reply as [[]|e]; cbn [result world trace fst snd is401].
  - split; reflexivity.
  - destruct (truthy (serverMessage e)), (statusIs 401 e); by split.
Qed.

(** ** Navigation *)

(** X20: the desktop and the mobile sidebar show the same entries for
    every user; each entry links to a path that App.tsx declares under
    [PrivateRoute], and each entry of the admin sidebar to a path
    declared under [AdminRoute]. *)
Theorem sidebars_agree_and_link_to_routes (u : option User) :
  Navigation.MobileSidebar u = Navigation.Sidebar u /\
  Forall (fun item =>
            In (Navigation.href item, Navigation.UnderPrivateRoute)
               Navigation.routes)
         (Navigation.Sidebar u) /\
  Forall (fun item =>
            In (Navigation.href item, Navigation.UnderAdminRoute)
               Navigation.routes)
         Navigation.AdminSidebar.
Proof.
  split; [reflexivity|]. split.
  - unfold Navigation.Sidebar.
    destruct (_ || _); [|destruct (Navigation.designationIs _ _)].
    all: repeat (apply Forall_cons; split; [cbn; tauto|]); apply Forall_nil_2.
  - unfold Navigation.AdminSidebar.
    repeat (apply Forall_cons; split; [cbn; tauto|]); apply Forall_nil_2.
Qed.

(** X21: every user, and nobody, gets Dashboard and History; Upload is
    offered exactly to a ['Medical Technician'], Classify exactly to a
    ['Doctor'] or a ['Nurse']. *)
Theorem sidebar_entries_by_designation (u : option User) :
  let nav := Navigation.Sidebar u in
  In (Navigation.mkNavItem "Dashboard" "/dashboard") nav /\
  In (Navigation.mkNavItem "History" "/history") nav /\
  (In (Navigation.mkNavItem "Upload" "/upload") nav <->
   Navigation.designationIs "Medical Technician" u = true) /\
  (In (Navigation.mkNavItem "Classify" "/classify-patient") nav <->
   Navigation.designationIs "Doctor" u = true \/
   Navigation.designationIs "Nurse" u = true).
Proof.
  intros nav. subst nav. unfold Navigation.Sidebar, Navigation.designationIs.
  destruct u as [x|]; cbn [orb].
  - destruct (String.eqb_spec (designation x) "Doctor") as [->|HD];
      cbn [orb String.eqb Ascii.eqb Bool.eqb].
    + simpl. intuition discriminate.
    + destruct (String.eqb_spec (designation x) "Nurse") as [->|HN];
        cbn [orb String.eqb Ascii.eqb Bool.eqb].
      * simpl. intuition discriminate.
      * destruct (String.eqb_spec (designation x) "Medical Technician");
          simpl; intuition discriminate.
  - simpl. intuition discriminate.
Qed.

(** ** The sort header of the history table *)

Lemma SortField_eqb_spec (a b : History.SortField) :
  History.SortField_eqb a b = true <-> a = b.
Proof. destruct a, b; simpl; split; congruence. Qed.

(** X22: [handleSort] always sets the sort field to the clicked column;
    for a column other than the current sort field it sets the direction
    to ascending, and a second click then sets it to descending; for the
    current sort field it reverses the direction, and two such clicks
    restore both state cells. *)
Theorem handleSort_clicks (field : History.SortField) (s : History.SortState) :
  History.sortField (History.handleSort field s) = field /\
  (field <> History.sortField s ->
     History.handleSort field s = History.mkSortState field History.asc /\
     History.handleSort field (History.handleSort field s) =
       History.mkSortState field History.desc) /\
  (field = History.sortField s ->
     History.sortDirection (History.handleSort field s) <>
       History.sortDirection s /\
     History.handleSort field (History.handleSort field s) = s).
Proof.
  unfold History.handleSort.
  destruct (History.SortField_eqb field (History.sortField s)) eqn:Heq.
  - apply SortField_eqb_spec in Heq. subst field. cbn.
    split; [reflexivity|]. split; [congruence|]. intros _.
    assert (Hrefl : History.SortField_eqb (History.sortField s)
                      (History.sortField s) = true)
      by by apply SortField_eqb_spec.
    rewrite Hrefl. destruct s as [f []]; cbn; split; congruence.
  - assert (Hne : field <> History.sortField s).
    { intros H. apply SortField_eqb_spec in H. congruence. }
    cbn. split; [reflexivity|]. split; [|congruence]. intros _.
    assert (Hrefl : History.SortField_eqb field field = true)
      by by apply SortField_eqb_spec.
    by rewrite Hrefl.
Qed.

Lemma handleSort_clicks_witness :
  History.handleSort History.confidence History.initial =
    History.mkSortState History.confidence History.asc /\
  History.handleSort History.createdAt
    (History.handleSort History.createdAt History.initial) = History.initial.
Proof.
  destruct (handleSort_clicks History.confidence History.initial)
    as (_ & Hnew & _).
  destruct (handleSort_clicks History.createdAt History.initial)
    as (_ & _ & Hsame).
  split.
  - apply Hnew. discriminate.
  - apply Hsame. reflexivity.
Defined.

(** ** Classify: rows after a status change *)

Lemma Classify_mapAt_ids (cid : Z)
    (f : Classify.Classification -> Classify.Classification)
    (l : list Classify.Classification) :
  (forall c, Classify.id (f c) = Classify.id c) ->
  List.map Classify.id (Classify.mapAt cid f l) = List.map Classify.id l.
Proof.
  intros Hf. unfold Classify.mapAt. rewrite List.map_map.
  apply List.map_ext. intros c.
  destruct (Classify.id c =? cid); [apply Hf | reflexivity].
Qed.

Lemma Classify_mapAt_other (cid : Z)
    (f : Classify.Classification -> Classify.Classification)
    (l : list Classify.Classification) (i : nat) (c : Classify.Classification) :
  l !! i = Some c -> Classify.id c <> cid ->
  Classify.mapAt cid f l !! i = Some c.
Proof.
  revert i. induction l as [|x l IH]; intros [|i]; simpl; try done.
  - intros [= ->] Hne. apply Z.eqb_neq in Hne. by rewrite Hne.
  - apply IH.
Qed.

Lemma Classify_mapAt_hit (cid : Z)
    (f : Classify.Classification -> Classify.Classification)
    (P : Classify.Classification -> Prop)
    (l : list Classify.Classification) (i : nat) (c : Classify.Classification) :
  (forall x, P (f x)) ->
  Classify.mapAt cid f l !! i = Some c -> Classify.id c = cid -> P c.
Proof.
  intros Hf. revert i. induction l as [|x l IH]; intros [|i]; simpl; try done.
  - destruct (Classify.id x =? cid) eqn:Hx.
    + intros [= <-] _. apply Hf.
    + intros [= <-] Hid. apply Z.eqb_neq in Hx. contradiction.
  - apply IH.
Qed.

Lemma updateClassificationStatus_run (cid : Z) (s : Classify.Status)
    (reply : AxiosResult unit) (l : list Classify.Classification)
    (w : World) (t : string) :
  localStorage w !! "token" = Some t -> t <> "" ->
  Classify.updateClassificationStatus cid s reply l w =
  (match reply with
   | Fulfilled _ =>
       (Classify.mapAt cid (Classify.withStatus s) l,
        ToastSuccess "Status updated successfully")
   | Rejected _ => (l, ToastError "Failed to update status")
   end,
   if is401 reply then cleared w else w,
   LsGetItem "token" ::
   Http ViaAxios PATCH
     ("/api/classifications/" +:+ pretty cid +:+ "/status")
     (Some (bearer t)) ::
   if is401 reply then [LsRemoveItem "token"; HdrDelete "Authorization"]
   else []).
Proof.
  intros Hls Hne. unfold Classify.updateClassificationStatus.
  rewrite bind_run, getItem_run. cbn [result world trace fst snd].
  rewrite Hls, (truthy_Some _ Hne). cbn [negb].
  rewrite bind_run, axios_request_run. cbn [result world trace fst snd].
  destruct reply as [[]|e]; cbn [is401]; [reflexivity|].
  by destruct (statusIs 401 e).
Qed.

(** X23: [updateClassificationStatus] keeps the number of rows and their
    ids, and every row with another id stays as it was, in place.  After
    a fulfilled request every row with the given id has the new status;
    after a rejected one the list is unchanged. *)
Theorem updateClassificationStatus_rows (cid : Z) (s : Classify.Status)
    (reply : AxiosResult unit) (l : list Classify.Classification)
    (w : World) (t : string) :
  localStorage w !! "token" = Some t -> t <> "" ->
  let l' := fst (result (Classify.updateClassificationStatus cid s reply l w)) in
  List.map Classify.id l' = List.map Classify.id l /\
  (forall i c, l !! i = Some c -> Classify.id c <> cid -> l' !! i = Some c) /\
  (forall d, reply = Fulfilled d ->
     forall i c, l' !! i = Some c -> Classify.id c = cid ->
       Classify.status c = s) /\
  (forall e, reply = Rejected e -> l' = l).
Proof.
  intros Hls Hne l'. subst l'.
  rewrite (updateClassificationStatus_run cid s reply l w t Hls Hne).
  cbn [result fst]. destruct reply as [d|e]; cbn [fst].
  - split; [by apply Classify_mapAt_ids|].
    split; [intros i c; apply Classify_mapAt_other|].
    split; [|intros e [=]]. intros _ _ i c Hc Hid.
    by apply (Classify_mapAt_hit cid (Classify.withStatus s)
                (fun x => Classify.status x = s) l i c).
  - split; [reflexivity|]. split; [done|]. split; [intros d [=] | done].
Qed.

Lemma updateClassificationStatus_rows_witness :
  let row1 := Classify.mkClassification 1 "a.png" "ALL-L1" 97 "2024-01-02"
                (Some "P-7") None Classify.pending in
  let row2 := Classify.mkClassification 2 "b.png" "ALL-L2" 81 "2024-01-03"
                None None Classify.pending in
  let l' := fst (result (Classify.updateClassificationStatus 2
                           Classify.reviewed (Fulfilled tt) [row1; row2]
                           (signedIn "live.jwt" approvedUser))) in
  l' !! 0%nat = Some row1 /\
  forall i c, l' !! i = Some c -> Classify.id c = 2 ->
    Classify.status c = Classify.reviewed.
Proof.
  intros row1 row2.
  destruct (updateClassificationStatus_rows 2 Classify.reviewed (Fulfilled tt)
              [row1; row2] (signedIn "live.jwt" approvedUser) "live.jwt")
    as (_ & Hother & Hhit & _); [reflexivity | discriminate |].
  split.
  - apply Hother; [reflexivity | discriminate].
  - apply (Hhit tt). reflexivity.
Defined.

Lemma generateReport_run (cid : Z) (reply : AxiosResult unit)
    (st : Classify.ReportState) (w : World) (t : string) :
  localStorage w !! "token" = Some t -> t <> "" ->
  Classify.generateReport cid reply st w =
  (match reply with
   | Fulfilled _ =>
       (Classify.mkReportState
          (Classify.mapAt cid (Classify.withReport (Classify.reportNotes st))
             (Classify.classifications st))
          None "",
        ToastSuccess "Report generated successfully")
   | Rejected _ => (st, ToastError "Failed to generate report")
   end,
   if is401 reply then cleared w else w,
   LsGetItem "token" ::
   Http ViaAxios POST
     ("/api/classifications/" +:+ pretty cid +:+ "/report")
     (Some (bearer t)) ::
   if is401 reply then [LsRemoveItem "token"; HdrDelete "Authorization"]
   else []).
Proof.
  intros Hls Hne. unfold Classify.generateReport.
  rewrite bind_run, getItem_run. cbn [result world trace fst snd].
  rewrite Hls, (truthy_Some _ Hne). cbn [negb].
  rewrite bind_run, axios_request_run. cbn [result world trace fst snd].
  destruct reply as [[]|e]; cbn [is401]; [reflexivity|].
  by destruct (statusIs 401 e).
Qed.

(** X24: after a fulfilled [generateReport] every row with the given id
    is ['reported'] and carries the notes that were typed, the other
    rows are untouched, and the selection and the notes field are
    reset; after a rejected one nothing of this changes, the typed notes
    included. *)
Theorem generateReport_rows (cid : Z) (reply : AxiosResult unit)
    (st : Classify.ReportState) (w : World) (t : string) :
  localStorage w !! "token" = Some t -> t <> "" ->
  let st' := fst (result (Classify.generateReport cid reply st w)) in
  (forall i c, Classify.classifications st !! i = Some c ->
     Classify.id c <> cid -> Classify.classifications st' !! i = Some c) /\
  (forall d, reply = Fulfilled d ->
     Classify.selectedClassification st' = None /\
     Classify.reportNotes st' = "" /\
     forall i c, Classify.classifications st' !! i = Some c ->
       Classify.id c = cid ->
       Classify.status c = Classify.reported /\
       Classify.notes c = Some (Classify.reportNotes st)) /\
  (forall e, reply = Rejected e -> st' = st).
Proof.
  intros Hls Hne st'. subst st'.
  rewrite (generateReport_run cid reply st w t Hls Hne).
  cbn [result fst]. destruct reply as [d|e]; cbn [fst].
  - split; [intros i c; apply Classify_mapAt_other|].
    split; [|intros e [=]]. intros _ _.
    split; [reflexivity|]. split; [reflexivity|]. intros i c Hc Hid.
    by apply (Classify_mapAt_hit cid
                (Classify.withReport (Classify.reportNotes st))
                (fun x => Classify.status x = Classify.reported /\
                          Classify.notes x = Some (Classify.reportNotes st))
                (Classify.classifications st) i c).
  - split; [done|]. split; [intros d [=] | done].
Qed.

Lemma generateReport_rows_witness :
  let row := Classify.mkClassification 2 "b.png" "ALL-L2" 81 "2024-01-03"
               None None Classify.reviewed in
  let st := Classify.mkReportState [row] (Some row) "blasts 40%" in
  let st' := fst (result (Classify.generateReport 2 (Fulfilled tt) st
                            (signedIn "live.jwt" approvedUser))) in
  Classify.selectedClassification st' = None /\
  Classify.reportNotes st' = "" /\
  forall i c, Classify.classifications st' !! i = Some c ->
    Classify.id c = 2 ->
    Classify.status c = Classify.reported /\
    Classify.notes c = Some "blasts 40%".
Proof.
  intros row st.
  destruct (generateReport_rows 2 (Fulfilled tt) st
              (signedIn "live.jwt" approvedUser) "live.jwt")
    as (_ & Hok & _); [reflexivity | discriminate |].
  apply (Hok tt). reflexivity.
Defined.

(** ** ManageUsers: the confirmed action *)

Lemma handleUserAction_run (reply : AxiosResult unit) (st : ManageUsers.State)
    (target : ManageUsers.User) (w : World) :
  ManageUsers.userToModify st = Some target ->
  ManageUsers.handleUserAction reply st w =
  (match reply with
   | Fulfilled _ =>
       (ManageUsers.mkState
          (ManageUsers.applied (ManageUsers.actionType st) target
             (ManageUsers.users st))
          None false (ManageUsers.actionType st),
        Some (ToastSuccess
                (ManageUsers.successMessage (ManageUsers.actionType st) target)))
   | Rejected _ =>
       (ManageUsers.mkState (ManageUsers.users st) None false
          (ManageUsers.actionType st),
        Some (ToastError "Failed to perform action"))
   end,
   if is401 reply then cleared w else w,
   Http ViaAxios
     (fst (ManageUsers.endpoint (ManageUsers.actionType st) target))
     (snd (ManageUsers.endpoint (ManageUsers.actionType st) target))
     (sentWith None w) ::
   if is401 reply then [LsRemoveItem "token"; HdrDelete "Authorization"]
   else []).
Proof.
  intros Htarget. unfold ManageUsers.handleUserAction. rewrite Htarget.
  rewrite bind_run, axios_request_run. cbn [result world trace fst snd].
  destruct reply as [[]|e]; cbn [is401]; [reflexivity|].
  by destruct (statusIs 401 e).
Qed.

(** X25: without a user to modify [handleUserAction] does nothing: no
    request, no toast, the same state.  With one, it sends exactly one
    request and, however that request settles, the dialog is closed
    and the selection dropped afterwards; a rejection leaves the list of
    users as it was and shows the error toast; and the session changes
    only if the reply is a 401. *)
Theorem handleUserAction_always_closes_dialog (reply : AxiosResult unit)
    (st : ManageUsers.State) (w : World) :
  (ManageUsers.userToModify st = None ->
     ManageUsers.handleUserAction reply st w = ((st, None), w, [])) /\
  (forall target, ManageUsers.userToModify st = Some target ->
     let r := ManageUsers.handleUserAction reply st w in
     ManageUsers.showConfirmDialog (fst (result r)) = false /\
     ManageUsers.userToModify (fst (result r)) = None /\
     length (requests (trace r)) = 1%nat /\
     world r = (if is401 reply then cleared w else w) /\
     (forall e, reply = Rejected e ->
        ManageUsers.users (fst (result r)) = ManageUsers.users st /\
        snd (result r) = Some (ToastError "Failed to perform action"))).
Proof.
  split.
  - intros Hnone. unfold ManageUsers.handleUserAction. by rewrite Hnone.
  - intros target Htarget r. subst r.
    rewrite (handleUserAction_run reply st target w Htarget).
    cbn [result world trace fst snd].
    destruct reply as [d|e]; cbn [fst snd is401].
    + split; [reflexivity|]. split; [reflexivity|]. split; [reflexivity|].
      split; [reflexivity|]. intros e [=].
    + split; [reflexivity|]. split; [reflexivity|].
      split; [by destruct (statusIs 401 e)|].
      split; [by destruct (statusIs 401 e)|]. intros e' _. by split.
Qed.

Lemma handleUserAction_always_closes_dialog_witness :
  let bo := ManageUsers.mkUser "8" "Bo" "bo@lab.org" "user" "pending"
              "2024-01-02" None in
  let st := ManageUsers.openConfirmDialog bo ManageUsers.act_promote
              (ManageUsers.mkState [bo] None false ManageUsers.act_delete) in
  let r := ManageUsers.handleUserAction (Rejected (httpError 500 None)) st
             (signedIn "live.jwt" approvedAdmin) in
  ManageUsers.showConfirmDialog (fst (result r)) = false /\
  ManageUsers.userToModify (fst (result r)) = None /\
  ManageUsers.users (fst (result r)) = [bo] /\
  snd (result r) = Some (ToastError "Failed to perform action").
Proof.
  intros bo st.
  destruct (proj2 (handleUserAction_always_closes_dialog
                     (Rejected (httpError 500 None)) st
                     (signedIn "live.jwt" approvedAdmin)) bo eq_refl)
    as (Hclosed & Hdropped & _ & _ & Hrej).
  destruct (Hrej (httpError 500 None) eq_refl) as [Husers Htoast].
  repeat split; assumption.
Defined.

(** X26: after a fulfilled delete the list holds exactly the users it
    held before whose id differs from the target's; no row with the
    target's id is left, whether or not the target was in the list. *)
Theorem handleUserAction_delete (d : unit) (st : ManageUsers.State)
    (target : ManageUsers.User) (w : World) :
  ManageUsers.userToModify st = Some target ->
  ManageUsers.actionType st = ManageUsers.act_delete ->
  let st' := fst (result (ManageUsers.handleUserAction (Fulfilled d) st w)) in
  (forall u, In u (ManageUsers.users st') <->
     In u (ManageUsers.users st) /\
     ManageUsers.id u <> ManageUsers.id target) /\
  snd (result (ManageUsers.handleUserAction (Fulfilled d) st w)) =
    Some (ToastSuccess
            ("User " +:+ ManageUsers.name target +:+ " has been deleted")).
Proof.
  intros Htarget Hact st'. subst st'.
  rewrite (handleUserAction_run _ st target w Htarget), Hact.
  cbn [result fst snd ManageUsers.users ManageUsers.applied
       ManageUsers.successMessage].
  split; [|reflexivity]. intros u. rewrite List.filter_In.
  rewrite negb_true_iff. split; intros [Hin Hid]; split; try done.
  - by apply String.eqb_neq.
  - by apply String.eqb_neq.
Qed.

Lemma handleUserAction_delete_witness :
  let ana := ManageUsers.mkUser "7" "Ana" "ana@lab.org" "user" "approved"
               "2024-01-01" None in
  let bo := ManageUsers.mkUser "8" "Bo" "bo@lab.org" "user" "pending"
              "2024-01-02" None in
  let st := ManageUsers.openConfirmDialog bo ManageUsers.act_delete
              (ManageUsers.mkState [ana; bo] None false
                 ManageUsers.act_delete) in
  let r := ManageUsers.handleUserAction (Fulfilled tt) st
             (signedIn "live.jwt" approvedAdmin) in
  (forall u, In u (ManageUsers.users (fst (result r))) <->
     In u [ana; bo] /\ ManageUsers.id u <> "8") /\
  snd (result r) = Some (ToastSuccess "User Bo has been deleted").
Proof.
  intros ana bo st.
  apply (handleUserAction_delete tt st bo
           (signedIn "live.jwt" approvedAdmin)); reflexivity.
Defined.

Lemma ManageUsers_mapAt_ids (target : ManageUsers.User)
    (f : ManageUsers.User -> ManageUsers.User) (us : list ManageUsers.User) :
  (forall u, ManageUsers.id (f u) = ManageUsers.id u) ->
  List.map ManageUsers.id (ManageUsers.mapAt target f us) =
  List.map ManageUsers.id us.
Proof.
  intros Hf. unfold ManageUsers.mapAt. rewrite List.map_map.
  apply List.map_ext. intros u.
  destruct (String.eqb _ _); [apply Hf | reflexivity].
Qed.

(** X27: suspending, promoting and demoting never add, remove or
    reorder rows: after any of them, fulfilled or rejected, the list of
    ids is the one before; and a delete is the only action after which
    the list can be shorter. *)
Theorem handleUserAction_keeps_ids (reply : AxiosResult unit)
    (st : ManageUsers.State) (target : ManageUsers.User) (w : World) :
  ManageUsers.userToModify st = Some target ->
  let st' := fst (result (ManageUsers.handleUserAction reply st w)) in
  (ManageUsers.actionType st <> ManageUsers.act_delete ->
     List.map ManageUsers.id (ManageUsers.users st') =
     List.map ManageUsers.id (ManageUsers.users st)) /\
  (length (ManageUsers.users st') <= length (ManageUsers.users st))%nat.
Proof.
  intros Htarget st'. subst st'.
  rewrite (handleUserAction_run reply st target w Htarget).
  cbn [result fst]. destruct reply as [d|e]; cbn [fst ManageUsers.users].
  - destruct (ManageUsers.actionType st); cbn [ManageUsers.applied].
    + split; [done|]. apply List.filter_length_le.
    + split; [intros _; by apply ManageUsers_mapAt_ids|].
      unfold ManageUsers.mapAt. by rewrite length_map.
    + split; [intros _; by apply ManageUsers_mapAt_ids|].
      unfold ManageUsers.mapAt. by rewrite length_map.
    + split; [intros _; by apply ManageUsers_mapAt_ids|].
      unfold ManageUsers.mapAt. by rewrite length_map.
  - split; [done | lia].
Qed.

Lemma handleUserAction_keeps_ids_witness :
  let ana := ManageUsers.mkUser "7" "Ana" "ana@lab.org" "user" "approved"
               "2024-01-01" None in
  let st := ManageUsers.openConfirmDialog ana ManageUsers.act_promote
              (ManageUsers.mkState [ana] None false ManageUsers.act_delete) in
  let st' := fst (result (ManageUsers.handleUserAction (Fulfilled tt) st
                            (signedIn "live.jwt" approvedAdmin))) in
  List.map ManageUsers.id (ManageUsers.users st') = ["7"].
Proof.
  intros ana st.
  apply (proj1 (handleUserAction_keeps_ids (Fulfilled tt) st ana
                  (signedIn "live.jwt" approvedAdmin) eq_refl)).
  discriminate.
Defined.

Lemma ManageUsers_toggle_back (target : ManageUsers.User)
    (us : list ManageUsers.User) :
  ManageUsers.status target = "approved" ->
  (forall u, In u us -> ManageUsers.id u = ManageUsers.id target ->
             ManageUsers.status u = "approved") ->
  ManageUsers.applied ManageUsers.act_suspend
    (ManageUsers.withStatus (ManageUsers.newStatus target) target)
    (ManageUsers.applied ManageUsers.act_suspend target us) = us.
Proof.
  intros Hst Hall. cbn [ManageUsers.applied]. unfold ManageUsers.newStatus.
  rewrite Hst. cbn. unfold ManageUsers.mapAt. rewrite List.map_map.
  rewrite <- (List.map_id us) at 2. apply List.map_ext_in.
  intros u Hu. cbn.
  destruct (String.eqb_spec (ManageUsers.id u) (ManageUsers.id target))
    as [Heq|Hne].
  - cbn. rewrite Heq, String.eqb_refl.
    specialize (Hall u Hu Heq). destruct u; cbn in *. by subst.
  - apply String.eqb_neq in Hne. by rewrite Hne.
Qed.

(** X28: the suspend action is a toggle.  It sets an approved target to
    ['suspended'] and any other target, a pending one included, to
    ['approved']; and when the rows with the target's id are approved,
    suspending the target and then confirming the same action on the
    row as it now shows brings the list back. *)
Theorem handleUserAction_suspend_toggles (st : ManageUsers.State)
    (target : ManageUsers.User) (w : World) :
  ManageUsers.userToModify st = Some target ->
  ManageUsers.actionType st = ManageUsers.act_suspend ->
  let r1 := ManageUsers.handleUserAction (Fulfilled tt) st w in
  let shown := ManageUsers.withStatus (ManageUsers.newStatus target) target in
  let r2 := ManageUsers.handleUserAction (Fulfilled tt)
              (ManageUsers.openConfirmDialog shown ManageUsers.act_suspend
                 (fst (result r1)))
              (world r1) in
  (forall u, In u (ManageUsers.users (fst (result r1))) ->
     ManageUsers.id u = ManageUsers.id target ->
     ManageUsers.status u =
       if String.eqb (ManageUsers.status target) "approved"
       then "suspended" else "approved") /\
  (ManageUsers.status target = "approved" ->
   (forall u, In u (ManageUsers.users st) ->
      ManageUsers.id u = ManageUsers.id target ->
      ManageUsers.status u = "approved") ->
   ManageUsers.users (fst (result r2)) = ManageUsers.users st).
Proof.
  intros Htarget Hact r1 shown r2. subst r1 shown r2.
  rewrite (handleUserAction_run _ st target w Htarget), Hact.
  cbn [result world fst snd is401 ManageUsers.users]. split.
  - intros u Hu Hid. cbn [ManageUsers.applied] in Hu.
    unfold ManageUsers.mapAt in Hu. apply List.in_map_iff in Hu
      as (x & Hx & _).
    destruct (String.eqb_spec (ManageUsers.id x) (ManageUsers.id target))
      as [Heq|Hne].
    + by subst u.
    + subst u. contradiction.
  - intros Hst Hall.
    rewrite (handleUserAction_run _ _
               (ManageUsers.withStatus (ManageUsers.newStatus target) target))
      by reflexivity.
    cbn [result fst ManageUsers.users ManageUsers.actionType
         ManageUsers.openConfirmDialog].
    by apply ManageUsers_toggle_back.
Qed.

Lemma handleUserAction_suspend_toggles_witness :
  let ana := ManageUsers.mkUser "7" "Ana" "ana@lab.org" "user" "approved"
               "2024-01-01" None in
  let st := ManageUsers.openConfirmDialog ana ManageUsers.act_suspend
              (ManageUsers.mkState [ana] None false ManageUsers.act_delete) in
  let w := signedIn "live.jwt" approvedAdmin in
  let r1 := ManageUsers.handleUserAction (Fulfilled tt) st w in
  let shown := ManageUsers.withStatus (ManageUsers.newStatus ana) ana in
  let r2 := ManageUsers.handleUserAction (Fulfilled tt)
              (ManageUsers.openConfirmDialog shown ManageUsers.act_suspend
                 (fst (result r1)))
              (world r1) in
  ManageUsers.users (fst (result r2)) = [ana].
Proof.
  intros ana st w.
  apply (proj2 (handleUserAction_suspend_toggles st ana w eq_refl eq_refl)).
  - reflexivity.
  - intros u [<-|[]] _. reflexivity.
Defined.

(** ** Who touches the token *)











